(** * Table-driven clinical rule engine: model and verified properties

    Shallow embedding of [rule_processor.py] (class [RuleProcessor]) and
    [simple_rule_engine.py] (class [SimpleRuleEngine]).

    Python dictionaries are finite maps ([gmap string _]), exceptions are
    an explicit [Raise] outcome, and every call that touches the rule
    resource leaves an event in a trace, so that "the rule table was not
    consulted" is a statement about that trace. *)

From Stdlib Require Import Ascii.
From stdpp Require Import gmap strings list pretty.

Open Scope Z_scope.

(** ** Python scalar values *)

(** The scalars that travel through the engine: [None], [str], [int] and
    [bool]. *)
Inductive pyval :=
  | PyNone
  | PyStr (s : string)
  | PyInt (z : Z)
  | PyBool (b : bool).

Global Instance pyval_eq_dec : EqDecision pyval.
Proof. solve_decision. Defined.

(** [str(v)] *)
Definition py_str (v : pyval) : string :=
  match v with
  | PyNone => "None"
  | PyStr s => s
  | PyInt z => pretty z
  | PyBool true => "True"
  | PyBool false => "False"
  end.

(** [bool(v)]: [None], [""], [0] and [False] are falsy. *)
Definition truthy (v : pyval) : bool :=
  match v with
  | PyNone => false
  | PyStr s => negb (bool_decide (s = ""))
  | PyInt z => negb (bool_decide (z = 0))
  | PyBool b => b
  end.

(** [d.get(k, dflt)] *)
Definition dict_get {V : Type} (d : gmap string V) (k : string) (dflt : V) : V :=
  default dflt (d !! k).

(** [sep.join(fields)] *)
Definition py_join (sep : string) (fields : list string) : string :=
  String.concat sep fields.

(** [s.strip()] on ASCII text: the characters [\t \n \v \f \r], the
    separators [0x1c]-[0x1f] and the blank are removed at both ends. *)
Definition is_py_space (c : ascii) : bool :=
  let n := nat_of_ascii c in
  (Nat.leb 9 n && Nat.leb n 13) || (Nat.leb 28 n && Nat.leb n 32).

Fixpoint lstrip (s : string) : string :=
  match s with
  | EmptyString => EmptyString
  | String c s' => if is_py_space c then lstrip s' else s
  end.

Definition rstrip (s : string) : string := String.rev (lstrip (String.rev s)).

Definition strip (s : string) : string := rstrip (lstrip s).

(** ** Exceptions, traces and the evaluation monad *)

(** Every member stands for a subclass of Python's [Exception]; [exn_str]
    is what [str(e)] gives. *)
Inductive exn :=
  | FileNotFoundError (msg : string)
  | JSONDecodeError (msg : string)
  | ValueError (msg : string)
  | KeyError (msg : string)
  | OtherException (cls msg : string).

Definition exn_str (e : exn) : string :=
  match e with
  | FileNotFoundError m | JSONDecodeError m | ValueError m | KeyError m => m
  | OtherException _ m => m
  end.

Inductive result (A : Type) :=
  | Ok (a : A)
  | Raise (e : exn).
Arguments Ok {A} a.
Arguments Raise {A} e.

(** What the rule processor does to the rule resource. *)
Inductive event :=
  | EvLoadRule (rule_path : string)
  | EvLookup (key : string).

(** A computation yields a value or a raised exception, together with the
    events it caused, oldest first. *)
Definition M (A : Type) : Type := result A * list event.

Definition raise {A : Type} (e : exn) : M A := (Raise e, []).
Definition emit (ev : event) : M unit := (Ok (), [ev]).
Definition lift {A : Type} (r : result A) : M A := (r, []).

Global Instance M_ret : MRet M := λ A a, (Ok a, []).

Global Instance M_bind : MBind M := λ A B f m,
  match m with
  | (Ok a, t) => let '(r, t') := f a in (r, t ++ t')
  | (Raise e, t) => (Raise e, t)
  end.

(** [try: body except Exception as e: handler(e)] *)
Definition try_except {A : Type} (body : M A) (handler : exn → M A) : M A :=
  match body with
  | (Ok a, t) => (Ok a, t)
  | (Raise e, t) => let '(r, t') := handler e in (r, t ++ t')
  end.

(** ** rule_processor.py *)

Record RuleDefinition := {
  input_parameters : list string;
  rules : gmap string pyval
}.

(** What [json.load] makes of a file that exists: a rule definition, or a
    decoding error. A file that decodes to a document of another shape, on
    which lines 43-46 would raise, has no counterpart here. *)
Inductive resource :=
  | Malformed (msg : string)
  | Parsed (rule_data : RuleDefinition).

(** The regular files [os.path.isfile] finds, by path. *)
Abbreviation filesystem := (gmap string resource).

Definition load_rule (fs : filesystem) (rule_path : string) : M RuleDefinition :=
  _ ← emit (EvLoadRule rule_path);
  match fs !! rule_path with
  | Some (Parsed rule_data) => mret rule_data
  | Some (Malformed msg) => raise (JSONDecodeError msg)
  | None => raise (FileNotFoundError ("Rule file not found: " +:+ rule_path))
  end.

(** The fields of the lookup key, one per declared parameter. *)
Definition key_fields (params : list string) (input_values : gmap string pyval)
    : list string :=
  map (λ param, py_str (dict_get input_values param (PyStr ""))) params.

Definition apply_rule (fs : filesystem) (rule_path : string)
    (input_values : gmap string pyval) : M pyval :=
  rule_data ← load_rule fs rule_path;
  let key := py_join "," (key_fields (input_parameters rule_data) input_values) in
  _ ← emit (EvLookup key);
  mret (dict_get (rules rule_data) key PyNone).

(** ** simple_rule_engine.py *)

(** One abstracted observation: a row of the frame the mediator returns.
    The two date columns hold timestamps (nanoseconds since the epoch), on
    which [pd.to_datetime] is the identity. *)
Record Row := {
  Concept_Name : string;
  Value : string;
  StartDateTime : Z;
  EndDateTime : Z
}.

(** A frame is its sequence of rows under the default positional index:
    row [i] carries the label [i]. *)
Abbreviation DataFrame := (list Row).

(** A frame cut out by a boolean mask: the rows kept, each still under the
    label it had. *)
Abbreviation Selection := (list (nat * Row)).

(** The snapshot date once defaulted: a string or a [datetime]. *)
Inductive snapshot :=
  | SnapStr (s : string)
  | SnapTime (t : Z).

(** A value stored in a result dictionary. *)
Inductive field :=
  | FVal (v : pyval)
  | FSnapshot (s : snapshot)
  | FStates (d : gmap string pyval)
  | FFrame (df : DataFrame).

(** A roster row: [(patient_id, first_name, last_name, sex)]. *)
Abbreviation patient_row := (pyval * pyval * pyval * pyval)%type.

(** The collaborators and configuration of a [SimpleRuleEngine]: the rule
    files on disk, the path [HEMATOLOGICAL_RULES] of [backend_config], the
    mediator, [pd.to_datetime] on strings, the formatted wall clock and what
    lines 133-145 of [analyze_all_patients_hematological_state] (import,
    diagnostics, roster query) produce. *)
Record Engine := {
  rule_files : filesystem;
  HEMATOLOGICAL_RULES : string;
  mediator_run : string → snapshot → result DataFrame;
  to_datetime : string → result Z;
  now_strftime : string;
  fetch_records : result (list patient_row)
}.

Definition get_hematological_state (E : Engine) (hemoglobin_state wbc_level : pyval)
    : M pyval :=
  if negb (truthy hemoglobin_state) || negb (truthy wbc_level) then mret PyNone
  else
    let input_values : gmap string pyval :=
      <["wbc_level" := wbc_level]> (<["hemoglobin_state" := hemoglobin_state]> ∅) in
    apply_rule (rule_files E) (HEMATOLOGICAL_RULES E) input_values.

(** The mask of lines 60-62, row by row. *)
Definition concept_mask (concept_name : string) (snapshot_time : Z) (r : Row) : bool :=
  bool_decide (Concept_Name r = concept_name)
  && Z.leb (StartDateTime r) snapshot_time
  && Z.geb (EndDateTime r) snapshot_time.

Fixpoint with_labels (i : nat) (df : DataFrame) : Selection :=
  match df with
  | [] => []
  | r :: df' => (i, r) :: with_labels (S i) df'
  end.

(** [df[mask]] *)
Definition boolean_index (mask : Row → bool) (df : DataFrame) : Selection :=
  List.filter (λ ir, mask ir.2) (with_labels 0%nat df).

(** [idxmax] keeps the label of the first maximum: a later value replaces
    the best one only when strictly greater. *)
Fixpoint idxmax_from (best : nat * Z) (col : list (nat * Z)) : nat :=
  match col with
  | [] => best.1
  | c :: col' => idxmax_from (if Z.ltb best.2 c.2 then c else best) col'
  end.

Definition idxmax (col : list (nat * Z)) : result nat :=
  match col with
  | [] => Raise (ValueError "attempt to get argmax of an empty sequence")
  | c :: col' => Ok (idxmax_from c col')
  end.

(** [sel.loc[label]] *)
Fixpoint loc (sel : Selection) (label : nat) : result Row :=
  match sel with
  | [] => Raise (KeyError (pretty label))
  | (i, r) :: sel' => if bool_decide (i = label) then Ok r else loc sel' label
  end.

Definition get_latest_abstracted_value (df : DataFrame) (concept_name : string)
    (snapshot_time : Z) : M pyval :=
  if bool_decide (df = []) then mret PyNone
  else
    let concept_data := boolean_index (concept_mask concept_name snapshot_time) df in
    if bool_decide (concept_data = []) then mret PyNone
    else
      label ← lift (idxmax (map (λ ir, (ir.1, StartDateTime ir.2)) concept_data));
      latest ← lift (loc concept_data label);
      mret (PyStr (Value latest)).

(** [snapshot_date or datetime.now().strftime(...)] *)
Definition snapshot_or_now (E : Engine) (snapshot_date : option snapshot) : snapshot :=
  match snapshot_date with
  | None => SnapStr (now_strftime E)
  | Some (SnapStr s) => if bool_decide (s = "") then SnapStr (now_strftime E) else SnapStr s
  | Some (SnapTime t) => SnapTime t
  end.

(** Lines 87-90: a string is parsed, a [datetime] is taken as it is. *)
Definition snapshot_time_of (E : Engine) (snapshot_date : snapshot) : result Z :=
  match snapshot_date with
  | SnapStr s => to_datetime E s
  | SnapTime t => Ok t
  end.

(** The dictionary of lines 96-103. *)
Definition no_data_result (patient_id : string) (snapshot_date : snapshot)
    : gmap string field :=
  <["error" := FVal (PyStr "No abstracted data available for this patient")]>
  (<["hematological_state" := FVal PyNone]>
  (<["wbc_level" := FVal PyNone]>
  (<["hemoglobin_state" := FVal PyNone]>
  (<["snapshot_date" := FSnapshot snapshot_date]>
  (<["patient_id" := FVal (PyStr patient_id)]> ∅))))).

(** The dictionary of lines 112-121. *)
Definition normal_result (patient_id : string) (snapshot_date : snapshot)
    (hemoglobin_state wbc_level hematological_state : pyval) (abstracted_df : DataFrame)
    : gmap string field :=
  <["abstracted_data" := FFrame abstracted_df]>
  (<["hematological_state" := FVal hematological_state]>
  (<["individual_states" :=
       FStates (<["wbc_level" := wbc_level]>
               (<["hemoglobin_state" := hemoglobin_state]> ∅))]>
  (<["snapshot_date" := FSnapshot snapshot_date]>
  (<["patient_id" := FVal (PyStr patient_id)]> ∅)))).

Definition analyze_patient_hematological_state (E : Engine) (patient_id : pyval)
    (snapshot_date : option snapshot) : M (gmap string field) :=
  let patient_id := strip (py_str patient_id) in
  let snapshot_date := snapshot_or_now E snapshot_date in
  snapshot_time ← lift (snapshot_time_of E snapshot_date);
  abstracted_df ← lift (mediator_run E patient_id snapshot_date);
  if bool_decide (abstracted_df = []) then
    mret (no_data_result patient_id snapshot_date)
  else
    hemoglobin_state ←
      get_latest_abstracted_value abstracted_df "Hemoglobin_Level" snapshot_time;
    wbc_level ← get_latest_abstracted_value abstracted_df "WBC_Level" snapshot_time;
    hematological_state ← get_hematological_state E hemoglobin_state wbc_level;
    mret (normal_result patient_id snapshot_date hemoglobin_state wbc_level
            hematological_state abstracted_df).

(** The record appended by the [except] branch of the roster loop. *)
Definition error_record (patient_id first_name last_name : pyval) (e : exn)
    : gmap string field :=
  <["error" := FVal (PyStr (exn_str e))]>
  (<["last_name" := FVal last_name]>
  (<["first_name" := FVal first_name]>
  (<["patient_id" := FVal patient_id]> ∅))).

(** The [for] loop of lines 151-166, [results] being the list built so
    far. *)
Fixpoint scan_roster (E : Engine) (snapshot_date : option snapshot)
    (all_patients : list patient_row) (results : list (gmap string field))
    : M (list (gmap string field)) :=
  match all_patients with
  | [] => mret results
  | (patient_id, first_name, last_name, _) :: rest =>
      results ← try_except
        (analysis ← analyze_patient_hematological_state E patient_id snapshot_date;
         let analysis := <["first_name" := FVal first_name]> analysis in
         let analysis := <["last_name" := FVal last_name]> analysis in
         mret (results ++ [analysis]))
        (λ e, mret (results ++ [error_record patient_id first_name last_name e]));
      scan_roster E snapshot_date rest results
  end.

Definition analyze_all_patients_hematological_state (E : Engine)
    (snapshot_date : option snapshot) : M (list (gmap string field)) :=
  all_patients ← lift (fetch_records E);
  if bool_decide (all_patients = []) then mret []
  else scan_roster E snapshot_date all_patients [].

(** ** The extractor as the specification words it

    "Among filtered records, pick the one with the maximum
    [StartDateTime]": a left-to-right pass over the kept rows in which a row
    displaces the current choice only when it starts strictly later. The
    engine's [idxmax]/[loc] pipeline is compared with it below. *)
Definition later_start (best r : Row) : Row :=
  if Z.ltb (StartDateTime best) (StartDateTime r) then r else best.

Definition spec_extractLatest (observations : list Row) (conceptName : string)
    (snapshotInstant : Z) : pyval :=
  match List.filter (concept_mask conceptName snapshotInstant) observations with
  | [] => PyNone
  | r :: kept => PyStr (Value (fold_left later_start kept r))
  end.

(** The running choice of [idxmax] over a selection, with its row. *)
Definition later_labelled (best c : nat * Row) : nat * Row :=
  if Z.ltb (StartDateTime best.2) (StartDateTime c.2) then c else best.

(** The number of delimiters in a string: a key field is well formed
    when it has none. *)
Fixpoint commas (s : string) : nat :=
  match s with
  | EmptyString => 0%nat
  | String c s' => ((if bool_decide (c = ","%char) then 1 else 0) + commas s')%nat
  end.

(** What one pass of the roster loop appends for a row. *)
Definition roster_entry (E : Engine) (snapshot_date : option snapshot)
    (row : patient_row) : gmap string field :=
  let '(patient_id, first_name, last_name, _) := row in
  match analyze_patient_hematological_state E patient_id snapshot_date with
  | (Ok analysis, _) =>
      <["last_name" := FVal last_name]> (<["first_name" := FVal first_name]> analysis)
  | (Raise e, _) => error_record patient_id first_name last_name e
  end.

(** ** Date columns as the frame stores them

    [get_latest_abstracted_value] converts the two date columns with
    [pd.to_datetime] inside the mask (lines 61-62), but takes [idxmax] of the
    [StartDateTime] column as it is stored (line 69). Below, a date cell is of
    any type [D]; [to_instant] is what [pd.to_datetime] reads in a cell and
    [cell_ltb] is the order in which [idxmax] compares two cells. [Row] above
    is the case of timestamp columns, in which the two agree. *)
Record StoredRow (D : Type) := {
  stored_Concept_Name : string;
  stored_Value : string;
  stored_StartDateTime : D;
  stored_EndDateTime : D
}.
Arguments stored_Concept_Name {D} _.
Arguments stored_Value {D} _.
Arguments stored_StartDateTime {D} _.
Arguments stored_EndDateTime {D} _.

Section stored_date_columns.
Context {D : Type}.
Variable to_instant : D → Z.
Variable cell_ltb : D → D → bool.

(** The mask of lines 60-62: both date columns go through [pd.to_datetime]. *)
Definition stored_mask (concept_name : string) (snapshot_time : Z)
    (r : StoredRow D) : bool :=
  bool_decide (stored_Concept_Name r = concept_name)
  && Z.leb (to_instant (stored_StartDateTime r)) snapshot_time
  && Z.geb (to_instant (stored_EndDateTime r)) snapshot_time.

Fixpoint stored_with_labels (i : nat) (df : list (StoredRow D))
    : list (nat * StoredRow D) :=
  match df with
  | [] => []
  | r :: df' => (i, r) :: stored_with_labels (S i) df'
  end.

Definition stored_boolean_index (mask : StoredRow D → bool) (df : list (StoredRow D))
    : list (nat * StoredRow D) :=
  List.filter (λ ir, mask ir.2) (stored_with_labels 0%nat df).

(** [idxmax] of line 69, over the cells themselves. *)
Fixpoint stored_idxmax_from (best : nat * D) (col : list (nat * D)) : nat :=
  match col with
  | [] => best.1
  | c :: col' => stored_idxmax_from (if cell_ltb best.2 c.2 then c else best) col'
  end.

Definition stored_idxmax (col : list (nat * D)) : result nat :=
  match col with
  | [] => Raise (ValueError "attempt to get argmax of an empty sequence")
  | c :: col' => Ok (stored_idxmax_from c col')
  end.

Fixpoint stored_loc (sel : list (nat * StoredRow D)) (label : nat)
    : result (StoredRow D) :=
  match sel with
  | [] => Raise (KeyError (pretty label))
  | (i, r) :: sel' => if bool_decide (i = label) then Ok r else stored_loc sel' label
  end.

Definition get_latest_abstracted_value_stored (df : list (StoredRow D))
    (concept_name : string) (snapshot_time : Z) : M pyval :=
  if bool_decide (df = []) then mret PyNone
  else
    let concept_data :=
      stored_boolean_index (stored_mask concept_name snapshot_time) df in
    if bool_decide (concept_data = []) then mret PyNone
    else
      label ← lift (stored_idxmax
                      (map (λ ir, (ir.1, stored_StartDateTime ir.2)) concept_data));
      latest ← lift (stored_loc concept_data label);
      mret (PyStr (stored_Value latest)).

(** The row as the mask sees it: each date cell replaced by its instant. *)
Definition row_of_stored (r : StoredRow D) : Row :=
  {| Concept_Name := stored_Concept_Name r;
     Value := stored_Value r;
     StartDateTime := to_instant (stored_StartDateTime r);
     EndDateTime := to_instant (stored_EndDateTime r) |}.
End stored_date_columns.

(** A cell of a date column stored as text: the text, and the instant
    [pd.to_datetime] reads in it. Python orders strings character by
    character. *)
Record datetext := {
  date_text : string;
  date_instant : Z
}.

Definition text_ltb (x y : datetext) : bool := String.ltb (date_text x) (date_text y).

(** Observations whose dates are month-first text, with instants written
    as [yyyymmdd]: a hemoglobin state that started on 31 December 2023 and one
    that started on 15 January 2024. *)
Definition text_observation (concept value start stop : string) (start_at stop_at : Z)
    : StoredRow datetext :=
  {| stored_Concept_Name := concept;
     stored_Value := value;
     stored_StartDateTime := {| date_text := start; date_instant := start_at |};
     stored_EndDateTime := {| date_text := stop; date_instant := stop_at |} |}.

Definition text_frame : list (StoredRow datetext) :=
  [ text_observation "Hemoglobin_Level" "Severe Anemia"
      "12/31/2023" "12/31/2024" 20231231 20241231;
    text_observation "Hemoglobin_Level" "Mild Anemia"
      "01/15/2024" "12/31/2024" 20240115 20241231 ].


(** ** A small clinic, for worked instances

    The rule table of the specification's scenario, extended with an entry
    whose hemoglobin field is empty, and four subjects: subject 1 has a full
    frame, the mediator fails for subject 2, subject 3 has no white-cell
    observation valid at the snapshot, subject 4 has no observation at all.
    Instants are small integers. *)
Definition demo_rule : RuleDefinition :=
  {| input_parameters := ["hemoglobin_state"; "wbc_level"];
     rules := <["Severe Anemia,Low" := PyStr "Critical Hematological State"]>
              (<[",Low" := PyStr "Unclassified"]> ∅) |}.

Definition demo_rule_path : string := "rules/hematological_rules.json".

Definition demo_files : filesystem := <[demo_rule_path := Parsed demo_rule]> ∅.

Definition observation (concept value : string) (start stop : Z) : Row :=
  {| Concept_Name := concept; Value := value;
     StartDateTime := start; EndDateTime := stop |}.

Definition demo_frame : DataFrame :=
  [ observation "Hemoglobin_Level" "Mild Anemia" 1 10;
    observation "WBC_Level" "Low" 2 8;
    observation "Hemoglobin_Level" "Severe Anemia" 3 12;
    observation "Hemoglobin_Level" "Moderate Anemia" 3 12 ].

Definition demo_frame_no_wbc : DataFrame :=
  [ observation "Hemoglobin_Level" "Severe Anemia" 3 12;
    observation "WBC_Level" "Low" 6 8 ].

Definition demo_roster : list patient_row :=
  [ (PyInt 1, PyStr "Dana", PyStr "Levi", PyStr "F");
    (PyInt 2, PyStr "Omer", PyStr "Katz", PyStr "M");
    (PyStr " 3 ", PyStr "Noa", PyStr "Peretz", PyStr "F") ].

Definition demo_engine : Engine :=
  {| rule_files := demo_files;
     HEMATOLOGICAL_RULES := demo_rule_path;
     mediator_run := λ patient_id _,
       if bool_decide (patient_id = "1") then Ok demo_frame
       else if bool_decide (patient_id = "2")
            then Raise (OtherException "OperationalError" "database is locked")
       else if bool_decide (patient_id = "3") then Ok demo_frame_no_wbc
       else Ok [];
     to_datetime := λ s,
       if bool_decide (s = "1970-01-01 00:00:05") then Ok 5
       else Raise (ValueError ("Unknown datetime string format: " +:+ s));
     now_strftime := "1970-01-01 00:00:05";
     fetch_records := Ok demo_roster |}.

(** A clinic whose table has a key of three comma-separated pieces and
    whose mediator reports a hemoglobin value that contains the delimiter. *)
Definition collision_engine : Engine :=
  {| rule_files :=
       <[demo_rule_path :=
           Parsed {| input_parameters := ["hemoglobin_state"; "wbc_level"];
                     rules := <[",Mild,Low" := PyStr "Unclassified"]> ∅ |}]> ∅;
     HEMATOLOGICAL_RULES := demo_rule_path;
     mediator_run := λ _ _,
       Ok [ observation "Hemoglobin_Level" ",Mild" 1 10;
            observation "WBC_Level" "Low" 1 10 ];
     to_datetime := λ _, Ok 5;
     now_strftime := "1970-01-01 00:00:05";
     fetch_records := Ok [] |}.

(** Strings made only of the characters [strip] removes. *)
Fixpoint all_space (s : string) : bool :=
  match s with
  | EmptyString => true
  | String c s' => is_py_space c && all_space s'
  end.

(** The clinic with its rule resource corrupted, and with it removed. *)
Definition broken_files : filesystem :=
  <[demo_rule_path := Malformed "Expecting value: line 1 column 1 (char 0)"]> ∅.

Definition demo_engine_without_rules : Engine :=
  {| rule_files := ∅;
     HEMATOLOGICAL_RULES := HEMATOLOGICAL_RULES demo_engine;
     mediator_run := mediator_run demo_engine;
     to_datetime := to_datetime demo_engine;
     now_strftime := now_strftime demo_engine;
     fetch_records := fetch_records demo_engine |}.

(** * Properties *)

(** ** The monad *)

Ltac munfold :=
  unfold mbind, M_bind, mret, M_ret, emit, raise, lift, try_except in *.

Section monad_facts.
Context {A B : Type}.

Lemma bind_ret_l (a : A) (f : A → M B) : (mret a ≫= f) = f a.
Proof. munfold. by destruct (f a). Qed.

Lemma bind_ok (m : M A) (f : A → M B) (a : A) (t : list event) :
  m = (Ok a, t) → (m ≫= f) = ((f a).1, t ++ (f a).2).
Proof. intros ->. munfold. by destruct (f a). Qed.

Lemma bind_raise (m : M A) (f : A → M B) (e : exn) (t : list event) :
  m = (Raise e, t) → (m ≫= f) = (Raise e, t).
Proof. by intros ->. Qed.

Lemma bind_lift_ok (a : A) (f : A → M B) : (lift (Ok a) ≫= f) = f a.
Proof. munfold. by destruct (f a). Qed.

Lemma bind_lift_raise (e : exn) (f : A → M B) : (lift (Raise e) ≫= f) = (Raise e, []).
Proof. done. Qed.
End monad_facts.

(** ** Python scalars *)

Lemma pretty_N_go_nonempty (x : N) (s : string) : s ≠ "" → pretty_N_go x s ≠ "".
Proof.
  revert s. induction (N.lt_wf_0 x) as [x _ IH]. intros s Hs.
  destruct (decide (x = 0)%N) as [->|Hx].
  - by rewrite pretty_N_go_0.
  - rewrite pretty_N_go_step by lia.
    apply IH; [apply N.div_lt; lia | done].
Qed.

Lemma pretty_Z_nonempty (z : Z) : pretty z ≠ "".
Proof.
  destruct z as [|p|p]; [done| |done].
  unfold pretty, pretty_Z, pretty, pretty_positive, pretty, pretty_N.
  case_decide; [done|].
  rewrite pretty_N_go_step by lia. by apply pretty_N_go_nonempty.
Qed.

(** The string form of a truthy scalar is never empty. *)
Lemma truthy_str_nonempty (v : pyval) : truthy v = true → py_str v ≠ "".
Proof.
  destruct v as [|s|z|[]]; simpl; try done.
  - intros H Hs. by rewrite bool_decide_eq_true_2 in H.
  - intros _. apply pretty_Z_nonempty.
Qed.

(** ** Rule loading and evaluation *)

Lemma load_rule_parsed (fs : filesystem) (rule_path : string) (rule_data : RuleDefinition) :
  fs !! rule_path = Some (Parsed rule_data) →
  load_rule fs rule_path = (Ok rule_data, [EvLoadRule rule_path]).
Proof. intros H. unfold load_rule. by rewrite H. Qed.

Lemma load_rule_missing (fs : filesystem) (rule_path : string) :
  fs !! rule_path = None →
  load_rule fs rule_path
  = (Raise (FileNotFoundError ("Rule file not found: " +:+ rule_path)),
     [EvLoadRule rule_path]).
Proof. intros H. unfold load_rule. by rewrite H. Qed.

Lemma apply_rule_parsed (fs : filesystem) (rule_path : string)
    (rule_data : RuleDefinition) (input_values : gmap string pyval) :
  fs !! rule_path = Some (Parsed rule_data) →
  apply_rule fs rule_path input_values
  = (Ok (dict_get (rules rule_data)
           (py_join "," (key_fields (input_parameters rule_data) input_values)) PyNone),
     [EvLoadRule rule_path;
      EvLookup (py_join "," (key_fields (input_parameters rule_data) input_values))]).
Proof.
  intros H. unfold apply_rule.
  by rewrite (bind_ok _ _ _ _ (load_rule_parsed _ _ _ H)).
Qed.

Lemma apply_rule_missing (fs : filesystem) (rule_path : string)
    (input_values : gmap string pyval) :
  fs !! rule_path = None →
  apply_rule fs rule_path input_values
  = (Raise (FileNotFoundError ("Rule file not found: " +:+ rule_path)),
     [EvLoadRule rule_path]).
Proof.
  intros H. unfold apply_rule.
  by rewrite (bind_raise _ _ _ _ (load_rule_missing _ _ H)).
Qed.

(** C1. [apply_rule] joins with [","] the string forms of
    [input_values.get(p, "")] over the declared parameters, in declared
    order, and returns the outcome stored under that key, or [None] when
    the table has no such key. A parameter the input mapping lacks
    contributes the empty field; for two declared parameters bound to [v1]
    and [v2] the key is [str(v1) + "," + str(v2)]. *)
Theorem apply_rule_key_lookup (fs : filesystem) (rule_path : string)
    (rule_data : RuleDefinition) (input_values : gmap string pyval) :
  fs !! rule_path = Some (Parsed rule_data) →
  let field_of := λ p : string,
    match input_values !! p with Some v => py_str v | None => "" end in
  let key := String.concat "," (map field_of (input_parameters rule_data)) in
  apply_rule fs rule_path input_values
  = (Ok (match rules rule_data !! key with Some outcome => outcome | None => PyNone end),
     [EvLoadRule rule_path; EvLookup key])
  ∧ (∀ p, input_values !! p = None → field_of p = "")
  ∧ (∀ p1 p2 v1 v2,
       input_parameters rule_data = [p1; p2] →
       input_values !! p1 = Some v1 → input_values !! p2 = Some v2 →
       key = py_str v1 +:+ "," +:+ py_str v2).
Proof.
  intros Hfs field_of key.
  assert (Hkey : py_join "," (key_fields (input_parameters rule_data) input_values) = key).
  { unfold py_join, key_fields, key. f_equal. apply map_ext. intros p.
    unfold dict_get, field_of. by destruct (input_values !! p). }
  split_and!.
  - rewrite (apply_rule_parsed _ _ _ _ Hfs), Hkey. unfold dict_get.
    by destruct (rules rule_data !! key).
  - intros p Hp. unfold field_of. by rewrite Hp.
  - intros p1 p2 v1 v2 Hps H1 H2. unfold key, field_of. rewrite Hps. simpl.
    by rewrite H1, H2.
Qed.

(** C7. When the rule resource does not exist, [load_rule] raises
    [FileNotFoundError]; [apply_rule] does not recover it, nor does
    [get_hematological_state], its caller in the engine: each raises the same
    exception and no lookup takes place. *)
Theorem load_rule_not_found_propagates (fs : filesystem) (rule_path : string) :
  fs !! rule_path = None →
  let e := FileNotFoundError ("Rule file not found: " +:+ rule_path) in
  load_rule fs rule_path = (Raise e, [EvLoadRule rule_path])
  ∧ (∀ input_values,
       apply_rule fs rule_path input_values = (Raise e, [EvLoadRule rule_path]))
  ∧ (∀ E hemoglobin_state wbc_level,
       rule_files E = fs → HEMATOLOGICAL_RULES E = rule_path →
       truthy hemoglobin_state = true → truthy wbc_level = true →
       get_hematological_state E hemoglobin_state wbc_level
       = (Raise e, [EvLoadRule rule_path])).
Proof.
  intros Hfs e. split_and!.
  - by apply load_rule_missing.
  - intros iv. by apply apply_rule_missing.
  - intros E h w <- <- Hh Hw. unfold get_hematological_state.
    rewrite Hh, Hw. simpl. by apply apply_rule_missing.
Qed.

(** ** The temporal value extractor *)

Lemma concept_mask_spec (c : string) (t : Z) (r : Row) :
  concept_mask c t r = true
  ↔ Concept_Name r = c ∧ StartDateTime r ≤ t ∧ t ≤ EndDateTime r.
Proof.
  unfold concept_mask. rewrite !andb_true_iff, bool_decide_eq_true.
  rewrite Z.leb_le, Z.geb_le. tauto.
Qed.

Section labelled_rows.
Implicit Types (df : DataFrame) (sel : Selection) (r : Row) (i k : nat).

Lemma with_labels_lookup df k i r :
  (i, r) ∈ with_labels k df ↔ (k ≤ i)%nat ∧ df !! (i - k)%nat = Some r.
Proof.
  revert k. induction df as [|r0 df IH]; intros k; simpl.
  - rewrite elem_of_nil. split; [done|]. by intros [_ ?].
  - rewrite elem_of_cons, IH. split.
    + intros [[= -> ->]|[Hk Hl]].
      * split; [lia|]. by rewrite Nat.sub_diag.
      * split; [lia|]. by replace (i - k)%nat with (S (i - S k)) by lia.
    + intros [Hk Hl]. destruct (decide (i = k)) as [->|Hne].
      * left. rewrite Nat.sub_diag in Hl. by simplify_eq/=.
      * right. split; [lia|].
        by replace (i - k)%nat with (S (i - S k)) in Hl by lia.
Qed.

Lemma with_labels_snd df k : (with_labels k df).*2 = df.
Proof. revert k. induction df as [|r df IH]; intros k; simpl; by rewrite ?IH. Qed.

Lemma with_labels_NoDup df k : NoDup (with_labels k df).*1.
Proof.
  revert k. induction df as [|r df IH]; intros k; simpl; constructor; [|done].
  intros Hin. apply list_elem_of_fmap in Hin as [[i r'] [-> Hin]].
  apply with_labels_lookup in Hin. simpl in *. lia.
Qed.

Lemma filter_fst_NoDup (f : nat * Row → bool) sel :
  NoDup sel.*1 → NoDup (List.filter f sel).*1.
Proof.
  induction sel as [|[i r] sel IH]; simpl; [done|].
  intros [Hi Hnd]%NoDup_cons. destruct (f (i, r)); simpl; [|by apply IH].
  apply NoDup_cons. split; [|by apply IH].
  intros Hin. apply Hi. apply list_elem_of_fmap in Hin as [[j r'] [-> Hin]].
  apply list_elem_of_In, filter_In in Hin as [Hin _].
  apply list_elem_of_fmap. exists (j, r'). split; [done|]. by apply list_elem_of_In.
Qed.

Lemma filter_snd (mask : Row → bool) sel :
  (List.filter (λ ir, mask ir.2) sel).*2 = List.filter mask sel.*2.
Proof.
  induction sel as [|[i r] sel IH]; simpl; [done|].
  destruct (mask r); csimpl; by rewrite IH.
Qed.

Lemma boolean_index_snd (mask : Row → bool) df :
  (boolean_index mask df).*2 = List.filter mask df.
Proof. unfold boolean_index. by rewrite filter_snd, with_labels_snd. Qed.

Lemma boolean_index_NoDup (mask : Row → bool) df : NoDup (boolean_index mask df).*1.
Proof. apply filter_fst_NoDup, with_labels_NoDup. Qed.

(** The mask keeps a row, under its own label, exactly when it holds of
    the row. *)
Lemma boolean_index_lookup (mask : Row → bool) df i r :
  (i, r) ∈ boolean_index mask df ↔ df !! i = Some r ∧ mask r = true.
Proof.
  unfold boolean_index. rewrite list_elem_of_In, filter_In, <- list_elem_of_In.
  rewrite with_labels_lookup, Nat.sub_0_r. simpl. intuition lia.
Qed.

Lemma loc_NoDup sel i r : NoDup sel.*1 → (i, r) ∈ sel → loc sel i = Ok r.
Proof.
  induction sel as [|[j r'] sel IH]; simpl.
  - by intros _ ?%elem_of_nil.
  - intros [Hj Hnd]%NoDup_cons [[= -> ->]|Hin]%elem_of_cons.
    + by rewrite bool_decide_eq_true_2.
    + rewrite bool_decide_eq_false_2; [by apply IH|].
      intros ->. apply Hj. apply list_elem_of_fmap. by exists (i, r).
Qed.
End labelled_rows.

Lemma idxmax_from_fold (sel : Selection) (b : nat * Row) :
  idxmax_from (b.1, StartDateTime b.2) (map (λ ir, (ir.1, StartDateTime ir.2)) sel)
  = (fold_left later_labelled sel b).1.
Proof.
  revert b. induction sel as [|c sel IH]; intros b; simpl; [done|].
  unfold later_labelled at 2. destruct (Z.ltb _ _); apply IH.
Qed.

Lemma fold_later_labelled_in (sel : Selection) (b : nat * Row) :
  fold_left later_labelled sel b ∈ b :: sel.
Proof.
  revert b. induction sel as [|c sel IH]; intros b; simpl; [by left|].
  pose proof (IH (later_labelled b c)) as Hin.
  assert (later_labelled b c = b ∨ later_labelled b c = c) as [Heq|Heq]
    by (unfold later_labelled; destruct (Z.ltb _ _); auto).
  all: rewrite Heq in *; rewrite !elem_of_cons in *; tauto.
Qed.

Lemma fold_later_labelled_snd (sel : Selection) (b : nat * Row) :
  (fold_left later_labelled sel b).2 = fold_left later_start sel.*2 b.2.
Proof.
  revert b. induction sel as [|c sel IH]; intros b; simpl; [done|].
  rewrite IH. f_equal. unfold later_labelled, later_start. by destruct (Z.ltb _ _).
Qed.

(** The engine's extractor computes the specification's, and never
    raises. *)
Lemma get_latest_abstracted_value_spec (df : DataFrame) (c : string) (t : Z) :
  get_latest_abstracted_value df c t = (Ok (spec_extractLatest df c t), []).
Proof.
  unfold get_latest_abstracted_value, spec_extractLatest.
  case_bool_decide as Hdf; [by subst|].
  pose proof (boolean_index_snd (concept_mask c t) df) as Hsnd.
  pose proof (boolean_index_NoDup (concept_mask c t) df) as Hnd.
  destruct (boolean_index (concept_mask c t) df) as [|b sel] eqn:Hsel.
  { csimpl in Hsnd. by rewrite <- Hsnd. }
  rewrite bool_decide_eq_false_2 by done.
  csimpl in Hsnd. rewrite <- Hsnd. simpl map. unfold idxmax.
  rewrite (idxmax_from_fold sel b), bind_lift_ok.
  pose proof (fold_later_labelled_in sel b) as Hin.
  destruct (fold_left later_labelled sel b) as [i r] eqn:Hfold.
  change (i, r).1 with i.
  rewrite (loc_NoDup _ i r Hnd Hin), bind_lift_ok.
  by rewrite <- fold_later_labelled_snd, Hfold.
Qed.

Section later_start_facts.
Implicit Types (r b : Row) (kept : list Row).

Lemma later_start_cases b r :
  (StartDateTime b < StartDateTime r ∧ later_start b r = r)
  ∨ (StartDateTime r ≤ StartDateTime b ∧ later_start b r = b).
Proof.
  unfold later_start. destruct (Z.ltb_spec (StartDateTime b) (StartDateTime r)); auto.
Qed.

Lemma fold_later_start_in kept b : fold_left later_start kept b ∈ b :: kept.
Proof.
  revert b. induction kept as [|r kept IH]; intros b; simpl; [by left|].
  pose proof (IH (later_start b r)) as Hin.
  destruct (later_start_cases b r) as [[_ Heq]|[_ Heq]];
    rewrite Heq in *; rewrite !elem_of_cons in *; tauto.
Qed.

Lemma fold_later_start_ge kept b :
  StartDateTime b ≤ StartDateTime (fold_left later_start kept b).
Proof.
  revert b. induction kept as [|r kept IH]; intros b; simpl; [lia|].
  pose proof (IH (later_start b r)).
  destruct (later_start_cases b r) as [[? Heq]|[? Heq]]; rewrite Heq in *; lia.
Qed.

Lemma fold_later_start_max kept b r :
  r ∈ b :: kept → StartDateTime r ≤ StartDateTime (fold_left later_start kept b).
Proof.
  revert b. induction kept as [|r0 kept IH]; intros b.
  - intros ->%list_elem_of_singleton. simpl. lia.
  - rewrite elem_of_cons. simpl. intros [->|Hin].
    + pose proof (fold_later_start_ge kept (later_start b r0)).
      destruct (later_start_cases b r0) as [[? Heq]|[? Heq]]; rewrite Heq in *; lia.
    + apply elem_of_cons in Hin as [->|Hin].
      * pose proof (fold_later_start_ge kept (later_start b r0)).
        destruct (later_start_cases b r0) as [[? Heq]|[? Heq]]; rewrite Heq in *; lia.
      * apply IH. by right.
Qed.

(** A choice that nothing later exceeds stays. *)
Lemma fold_later_start_keep kept b :
  (∀ r, r ∈ kept → StartDateTime r ≤ StartDateTime b) →
  fold_left later_start kept b = b.
Proof.
  induction kept as [|r kept IH]; simpl; [done|]. intros Hle.
  destruct (later_start_cases b r) as [[Hlt _]|[_ ->]].
  - specialize (Hle r (list_elem_of_here _ _)). lia.
  - apply IH. intros r' Hr'. apply Hle. by right.
Qed.

(** The first row that starts strictly later than all before it and no
    earlier than all after it is the final choice. *)
Lemma fold_later_start_first kept1 kept2 b r :
  StartDateTime b < StartDateTime r →
  (∀ r', r' ∈ kept1 → StartDateTime r' < StartDateTime r) →
  (∀ r', r' ∈ kept2 → StartDateTime r' ≤ StartDateTime r) →
  fold_left later_start (kept1 ++ r :: kept2) b = r.
Proof.
  revert b. induction kept1 as [|r1 kept1 IH]; intros b Hb H1 H2; simpl.
  - destruct (later_start_cases b r) as [[_ ->]|[? _]]; [|lia].
    by apply fold_later_start_keep.
  - apply IH; [|intros r' Hr'; apply H1; by right|done].
    specialize (H1 r1 (list_elem_of_here _ _)).
    destruct (later_start_cases b r1) as [[_ ->]|[_ ->]]; lia.
Qed.
End later_start_facts.

Lemma spec_extractLatest_first (pre post : list Row) (r : Row) (c : string) (t : Z) :
  concept_mask c t r = true →
  (∀ r', r' ∈ pre → concept_mask c t r' = true → StartDateTime r' < StartDateTime r) →
  (∀ r', r' ∈ post → concept_mask c t r' = true → StartDateTime r' ≤ StartDateTime r) →
  spec_extractLatest (pre ++ r :: post) c t = PyStr (Value r).
Proof.
  intros Hr Hpre Hpost. unfold spec_extractLatest.
  rewrite List.filter_app. simpl. rewrite Hr.
  assert (H1 : ∀ r', r' ∈ List.filter (concept_mask c t) pre →
                     StartDateTime r' < StartDateTime r).
  { intros r' [? ?]%list_elem_of_In%filter_In. apply Hpre; [by apply list_elem_of_In|done]. }
  assert (H2 : ∀ r', r' ∈ List.filter (concept_mask c t) post →
                     StartDateTime r' ≤ StartDateTime r).
  { intros r' [? ?]%list_elem_of_In%filter_In. apply Hpost; [by apply list_elem_of_In|done]. }
  destruct (List.filter (concept_mask c t) pre) as [|b kept1]; simpl.
  - by rewrite fold_later_start_keep.
  - rewrite fold_later_start_first; [done| |intros; apply H1; by right|done].
    apply H1. by left.
Qed.

Lemma spec_extractLatest_none (df : DataFrame) (c : string) (t : Z) :
  spec_extractLatest df c t = PyNone ↔ ∀ r, r ∈ df → concept_mask c t r = false.
Proof.
  unfold spec_extractLatest. split.
  - destruct (List.filter (concept_mask c t) df) as [|b kept] eqn:Hf; [|done].
    intros _ r Hr. destruct (concept_mask c t r) eqn:Hm; [|done].
    assert (Hin : In r (List.filter (concept_mask c t) df))
      by (apply filter_In; split; [by apply list_elem_of_In|done]).
    by rewrite Hf in Hin.
  - intros Hall. destruct (List.filter (concept_mask c t) df) as [|b kept] eqn:Hf; [done|].
    assert (Hin : In b (List.filter (concept_mask c t) df)) by (rewrite Hf; by left).
    apply filter_In in Hin as [Hin Hm]. apply list_elem_of_In in Hin.
    by rewrite (Hall b Hin) in Hm.
Qed.

(** On timestamp columns the extractor keeps exactly the rows whose concept
    name is the requested one and whose interval contains the snapshot
    instant, both bounds included; when some row is kept it returns the
    [Value] of a kept row whose [StartDateTime] no kept row exceeds. Of two
    rows of the concept that both contain the instant, the one starting later
    gives the value, whichever comes first in the frame. *)
Theorem get_latest_abstracted_value_latest (df : DataFrame) (c : string) (t : Z) :
  let concept_data := boolean_index (concept_mask c t) df in
  (∀ i r, (i, r) ∈ concept_data
          ↔ df !! i = Some r ∧ Concept_Name r = c
            ∧ StartDateTime r ≤ t ∧ t ≤ EndDateTime r)
  ∧ (concept_data ≠ [] →
     ∃ i r, (i, r) ∈ concept_data
       ∧ (∀ j r', (j, r') ∈ concept_data → StartDateTime r' ≤ StartDateTime r)
       ∧ get_latest_abstracted_value df c t = (Ok (PyStr (Value r)), []))
  ∧ (∀ r1 r2,
       Concept_Name r1 = c → Concept_Name r2 = c →
       StartDateTime r1 ≤ t ≤ EndDateTime r1 →
       StartDateTime r2 ≤ t ≤ EndDateTime r2 →
       StartDateTime r1 < StartDateTime r2 →
       get_latest_abstracted_value [r1; r2] c t = (Ok (PyStr (Value r2)), [])
       ∧ get_latest_abstracted_value [r2; r1] c t = (Ok (PyStr (Value r2)), [])).
Proof.
  intros concept_data. split_and!.
  - intros i r. unfold concept_data.
    by rewrite boolean_index_lookup, concept_mask_spec.
  - intros Hne. rewrite get_latest_abstracted_value_spec. unfold spec_extractLatest.
    pose proof (boolean_index_snd (concept_mask c t) df) as Hsnd.
    fold concept_data in Hsnd.
    destruct (List.filter (concept_mask c t) df) as [|b kept] eqn:Hf.
    { by destruct concept_data. }
    pose proof (fold_later_start_in kept b) as Hin.
    rewrite <- Hsnd in Hin. apply list_elem_of_fmap in Hin as [[i r] [Hr Hin]].
    simpl in Hr. exists i, r. split_and!; [done| |by rewrite Hr].
    intros j r' Hj. rewrite <- Hr. apply fold_later_start_max.
    rewrite <- Hsnd. apply list_elem_of_fmap. by exists (j, r').
  - intros r1 r2 Hc1 Hc2 [H1 H1'] [H2 H2'] Hlt.
    assert (Hm1 : concept_mask c t r1 = true) by by apply concept_mask_spec.
    assert (Hm2 : concept_mask c t r2 = true) by by apply concept_mask_spec.
    rewrite !get_latest_abstracted_value_spec. split; do 2 f_equal.
    + apply (spec_extractLatest_first [r1] [] r2); [done| |by intros ? ?%elem_of_nil].
      by intros r' ->%list_elem_of_singleton _.
    + apply (spec_extractLatest_first [] [r1] r2); [done|by intros ? ?%elem_of_nil|].
      intros r' ->%list_elem_of_singleton _. lia.
Qed.

(** C6. The extractor never raises, and it returns [None] exactly when
    there is no candidate: the frame is empty, or no row bears the concept
    name, or the snapshot instant lies outside the interval of every row that
    does. *)
Theorem get_latest_abstracted_value_none_iff (df : DataFrame) (c : string) (t : Z) :
  (∃ v, get_latest_abstracted_value df c t = (Ok v, []))
  ∧ (get_latest_abstracted_value df c t = (Ok PyNone, [])
     ↔ df = []
       ∨ (∀ r, r ∈ df → Concept_Name r ≠ c)
       ∨ (∀ r, r ∈ df → Concept_Name r = c →
                ¬ (StartDateTime r ≤ t ∧ t ≤ EndDateTime r))).
Proof.
  rewrite get_latest_abstracted_value_spec. split; [by eexists|].
  split.
  - intros [= Hnone]. right; right. intros r Hr Hc Hint.
    rewrite spec_extractLatest_none in Hnone.
    assert (concept_mask c t r = true) as Hm by (apply concept_mask_spec; tauto).
    by rewrite (Hnone r Hr) in Hm.
  - intros Hcase. do 2 f_equal. apply spec_extractLatest_none. intros r Hr.
    destruct (concept_mask c t r) eqn:Hm; [|done].
    apply concept_mask_spec in Hm as (Hc & Hs & He).
    destruct Hcase as [->|[Hname|Hout]].
    + by apply elem_of_nil in Hr.
    + by destruct (Hname r Hr).
    + by destruct (Hout r Hr Hc).
Qed.

(** On timestamp columns, among the candidates (rows of the concept whose
    interval contains the snapshot instant), the first row in frame order
    that attains the maximal [StartDateTime] gives the value: every candidate
    before it starts strictly earlier, every candidate after it starts no
    later. *)
Theorem get_latest_abstracted_value_first_of_ties
    (pre post : list Row) (r : Row) (c : string) (t : Z) :
  Concept_Name r = c → StartDateTime r ≤ t → t ≤ EndDateTime r →
  (∀ r', r' ∈ pre → Concept_Name r' = c → StartDateTime r' ≤ t → t ≤ EndDateTime r' →
         StartDateTime r' < StartDateTime r) →
  (∀ r', r' ∈ post → Concept_Name r' = c → StartDateTime r' ≤ t → t ≤ EndDateTime r' →
         StartDateTime r' ≤ StartDateTime r) →
  get_latest_abstracted_value (pre ++ r :: post) c t = (Ok (PyStr (Value r)), []).
Proof.
  intros Hc Hs He Hpre Hpost. rewrite get_latest_abstracted_value_spec. do 2 f_equal.
  apply spec_extractLatest_first.
  - apply concept_mask_spec. tauto.
  - intros r' Hin (? & ? & ?)%concept_mask_spec. by apply Hpre.
  - intros r' Hin (? & ? & ?)%concept_mask_spec. by apply Hpost.
Qed.

(** ** The single-subject analyzer *)

Lemma get_hematological_state_falsy (E : Engine) (h w : pyval) :
  truthy h = false ∨ truthy w = false →
  get_hematological_state E h w = (Ok PyNone, []).
Proof.
  intros Hf. unfold get_hematological_state.
  destruct Hf as [-> | ->]; simpl; [done|]. by rewrite orb_true_r.
Qed.

Lemma get_hematological_state_truthy (E : Engine) (h w : pyval) :
  truthy h = true → truthy w = true →
  get_hematological_state E h w
  = apply_rule (rule_files E) (HEMATOLOGICAL_RULES E)
      (<["wbc_level" := w]> (<["hemoglobin_state" := h]> ∅)).
Proof. intros Hh Hw. unfold get_hematological_state. by rewrite Hh, Hw. Qed.

Section analyze_steps.
Context (E : Engine) (patient_id : pyval) (snapshot_date : option snapshot).
Let pid := strip (py_str patient_id).
Let snap := snapshot_or_now E snapshot_date.

Lemma analyze_bad_snapshot (e : exn) :
  snapshot_time_of E snap = Raise e →
  analyze_patient_hematological_state E patient_id snapshot_date = (Raise e, []).
Proof.
  intros H. unfold analyze_patient_hematological_state. fold pid snap.
  by rewrite H.
Qed.

Lemma analyze_mediator_raises (t : Z) (e : exn) :
  snapshot_time_of E snap = Ok t → mediator_run E pid snap = Raise e →
  analyze_patient_hematological_state E patient_id snapshot_date = (Raise e, []).
Proof.
  intros Ht Hm. unfold analyze_patient_hematological_state. fold pid snap.
  by rewrite Ht, bind_lift_ok, Hm.
Qed.

Lemma analyze_empty (t : Z) :
  snapshot_time_of E snap = Ok t → mediator_run E pid snap = Ok [] →
  analyze_patient_hematological_state E patient_id snapshot_date
  = (Ok (no_data_result pid snap), []).
Proof.
  intros Ht Hm. unfold analyze_patient_hematological_state. fold pid snap.
  by rewrite Ht, bind_lift_ok, Hm, bind_lift_ok.
Qed.

Lemma analyze_nonempty (t : Z) (df : DataFrame) :
  snapshot_time_of E snap = Ok t → mediator_run E pid snap = Ok df → df ≠ [] →
  let h := spec_extractLatest df "Hemoglobin_Level" t in
  let w := spec_extractLatest df "WBC_Level" t in
  analyze_patient_hematological_state E patient_id snapshot_date
  = (hs ← get_hematological_state E h w; mret (normal_result pid snap h w hs df)).
Proof.
  intros Ht Hm Hdf h w. unfold analyze_patient_hematological_state. fold pid snap.
  rewrite Ht, bind_lift_ok, Hm, bind_lift_ok, bool_decide_eq_false_2 by done.
  rewrite (bind_ok _ _ _ _ (get_latest_abstracted_value_spec df _ t)).
  rewrite (bind_ok _ _ _ _ (get_latest_abstracted_value_spec df "WBC_Level" t)).
  fold h w. simpl.
  by destruct (get_hematological_state E h w ≫= _) as [r tr].
Qed.
End analyze_steps.

(** C4. When either input of [get_hematological_state] is [None] it
    returns [None] having touched nothing; hence an analysis over a non-empty
    frame in which the hemoglobin state or the WBC level extracts to [None]
    returns a result whose [hematological_state] is [None], and its trace is
    empty: no rule was loaded and no key was looked up. *)
Theorem analyze_incomplete_inputs_no_lookup (E : Engine) :
  (∀ h w, h = PyNone ∨ w = PyNone → get_hematological_state E h w = (Ok PyNone, []))
  ∧ (∀ patient_id snapshot_date t df,
       let pid := strip (py_str patient_id) in
       let snap := snapshot_or_now E snapshot_date in
       snapshot_time_of E snap = Ok t →
       mediator_run E pid snap = Ok df → df ≠ [] →
       get_latest_abstracted_value df "Hemoglobin_Level" t = (Ok PyNone, [])
       ∨ get_latest_abstracted_value df "WBC_Level" t = (Ok PyNone, []) →
       ∃ r, analyze_patient_hematological_state E patient_id snapshot_date = (Ok r, [])
            ∧ r !! "hematological_state" = Some (FVal PyNone)).
Proof.
  split.
  - intros h w Hnone. apply get_hematological_state_falsy.
    destruct Hnone as [-> | ->]; auto.
  - intros patient_id snapshot_date t df pid snap Ht Hm Hdf Hnone.
    rewrite !get_latest_abstracted_value_spec in Hnone.
    rewrite (analyze_nonempty _ _ _ t df Ht Hm Hdf).
    rewrite get_hematological_state_falsy.
    + eexists. split; [reflexivity|done].
    + destruct Hnone as [[= ->]|[= ->]]; auto.
Qed.

(** C5. When the mediator returns an empty frame for the subject at the
    snapshot, the analysis returns (it does not raise) a result in which
    [hemoglobin_state], [wbc_level] and [hematological_state] are [None] and
    [error] holds the no-data message; nothing else is in it but the subject
    id and the snapshot date. *)
Theorem analyze_no_data (E : Engine) (patient_id : pyval)
    (snapshot_date : option snapshot) (t : Z) :
  let pid := strip (py_str patient_id) in
  let snap := snapshot_or_now E snapshot_date in
  snapshot_time_of E snap = Ok t →
  mediator_run E pid snap = Ok [] →
  ∃ r, analyze_patient_hematological_state E patient_id snapshot_date = (Ok r, [])
       ∧ r !! "hemoglobin_state" = Some (FVal PyNone)
       ∧ r !! "wbc_level" = Some (FVal PyNone)
       ∧ r !! "hematological_state" = Some (FVal PyNone)
       ∧ r !! "error" = Some (FVal (PyStr "No abstracted data available for this patient"))
       ∧ r !! "patient_id" = Some (FVal (PyStr pid))
       ∧ r !! "snapshot_date" = Some (FSnapshot snap)
       ∧ dom r = list_to_set ["patient_id"; "snapshot_date"; "hemoglobin_state";
                              "wbc_level"; "hematological_state"; "error"].
Proof.
  intros pid snap Ht Hm. rewrite (analyze_empty _ _ _ t Ht Hm).
  eexists. split; [done|]. unfold no_data_result. by split_and!.
Qed.

(** ** Composite keys and the delimiter *)

Section composite_keys.
Implicit Types (s x y : string) (fs gs : list string).

Lemma commas_app s1 s2 : commas (s1 +:+ s2) = (commas s1 + commas s2)%nat.
Proof.
  induction s1 as [|c s1 IH]; [done|].
  change (String c s1 +:+ s2) with (String c (s1 +:+ s2)). simpl. rewrite IH. lia.
Qed.

Lemma commas_concat fs :
  commas (String.concat "," fs) = (pred (length fs) + sum_list (commas <$> fs))%nat.
Proof.
  induction fs as [|f fs IH]; [done|].
  destruct fs as [|f' fs]; [simpl; lia|].
  change (String.concat "," (f :: f' :: fs))
    with (f +:+ "," +:+ String.concat "," (f' :: fs)).
  rewrite !commas_app, IH. simpl. lia.
Qed.

Lemma sum_list_commas_0 gs :
  sum_list (commas <$> gs) = 0%nat → Forall (λ g, commas g = 0%nat) gs.
Proof.
  induction gs as [|g gs IH]; csimpl; [constructor|].
  intros H. constructor; [lia|apply IH; lia].
Qed.

(** A delimiter-free field before a delimiter is determined by the whole. *)
Lemma comma_prefix_inj s1 s2 x y :
  commas s1 = 0%nat → commas s2 = 0%nat →
  s1 +:+ "," +:+ x = s2 +:+ "," +:+ y → s1 = s2 ∧ x = y.
Proof.
  revert s2. induction s1 as [|c s1 IH]; intros [|c' s2]; simpl; intros H1 H2 Heq.
  - change (String "," x = String "," y) in Heq. by injection Heq as ->.
  - change (String "," x = String c' (s2 +:+ "," +:+ y)) in Heq.
    injection Heq as <- _. by rewrite bool_decide_eq_true_2 in H2.
  - change (String c (s1 +:+ "," +:+ x) = String "," y) in Heq.
    injection Heq as -> _. by rewrite bool_decide_eq_true_2 in H1.
  - change (String c (s1 +:+ "," +:+ x) = String c' (s2 +:+ "," +:+ y)) in Heq.
    injection Heq as -> Heq.
    destruct (IH s2) as [-> ->]; [lia|lia|done|done].
Qed.

Lemma concat_comma_free_inj fs gs :
  length fs = length gs →
  Forall (λ f, commas f = 0%nat) fs → Forall (λ g, commas g = 0%nat) gs →
  String.concat "," fs = String.concat "," gs → fs = gs.
Proof.
  revert gs. induction fs as [|f fs IH]; intros [|g gs] Hlen Hfs Hgs Heq;
    simplify_eq/=; [done|].
  apply Forall_cons in Hfs as [Hf Hfs]. apply Forall_cons in Hgs as [Hg Hgs].
  destruct fs as [|f' fs], gs as [|g' gs]; simplify_eq/=; [done|].
  apply comma_prefix_inj in Heq as [-> Heq]; [|done..].
  f_equal. apply IH; [by simpl; f_equal|done..].
Qed.

(** Joining is injective from delimiter-free fields: a key made of [n]
    delimiter-free fields is the join of no other list of [n] fields. *)
Lemma concat_comma_inj fs gs :
  length fs = length gs → Forall (λ f, commas f = 0%nat) fs →
  String.concat "," fs = String.concat "," gs → fs = gs.
Proof.
  intros Hlen Hfs Heq. apply concat_comma_free_inj; [done..| |done].
  apply sum_list_commas_0.
  pose proof (f_equal commas Heq) as Hc. rewrite !commas_concat, Hlen in Hc.
  assert (sum_list (commas <$> fs) = 0%nat); [|lia].
  clear -Hfs. induction Hfs as [|f fs Hf _ IH]; csimpl; [done|lia].
Qed.
End composite_keys.

Lemma bind_mret_trace {A B : Type} (m : M A) (f : A → B) :
  (m ≫= λ a, mret (f a)).2 = m.2.
Proof. destruct m as [[a|e] t]; simpl; [|done]. by rewrite app_nil_r. Qed.

(** A lookup made by an analysis is the one [get_hematological_state] makes
    for two truthy values through [apply_rule]. *)
Lemma analyze_lookup_inv (E : Engine) (patient_id : pyval)
    (snapshot_date : option snapshot) (key : string) :
  EvLookup key ∈ (analyze_patient_hematological_state E patient_id snapshot_date).2 →
  ∃ h w, truthy h = true ∧ truthy w = true
    ∧ EvLookup key ∈ (apply_rule (rule_files E) (HEMATOLOGICAL_RULES E)
                         (<["wbc_level" := w]> (<["hemoglobin_state" := h]> ∅))).2.
Proof.
  destruct (snapshot_time_of E (snapshot_or_now E snapshot_date)) as [t|e] eqn:Ht.
  2: { rewrite (analyze_bad_snapshot _ _ _ e Ht). by intros ?%elem_of_nil. }
  destruct (mediator_run E (strip (py_str patient_id))
              (snapshot_or_now E snapshot_date)) as [df|e] eqn:Hm.
  2: { rewrite (analyze_mediator_raises _ _ _ t e Ht Hm). by intros ?%elem_of_nil. }
  destruct (decide (df = [])) as [->|Hdf].
  { rewrite (analyze_empty _ _ _ t Ht Hm). by intros ?%elem_of_nil. }
  rewrite (analyze_nonempty _ _ _ t df Ht Hm Hdf), bind_mret_trace.
  set (h := spec_extractLatest df "Hemoglobin_Level" t).
  set (w := spec_extractLatest df "WBC_Level" t).
  destruct (truthy h) eqn:Hh; [destruct (truthy w) eqn:Hw|].
  - rewrite get_hematological_state_truthy by done. intros Hin. by exists h, w.
  - rewrite get_hematological_state_falsy by auto. by intros ?%elem_of_nil.
  - rewrite get_hematological_state_falsy by auto. by intros ?%elem_of_nil.
Qed.

(** The key built from the two values of [get_hematological_state]. *)
Lemma key_fields_two_states (params : list string) (h w : pyval) :
  key_fields params (<["wbc_level" := w]> (<["hemoglobin_state" := h]> ∅))
  = map (λ p : string,
           if bool_decide (p = "hemoglobin_state") then py_str h
           else if bool_decide (p = "wbc_level") then py_str w else "") params.
Proof.
  unfold key_fields. apply map_ext. intros p. unfold dict_get.
  case_bool_decide as Hh; [subst; by rewrite lookup_insert_ne, lookup_insert_eq|].
  case_bool_decide as Hw; [subst; by rewrite lookup_insert_eq|].
  by rewrite !lookup_insert_ne, lookup_empty.
Qed.

(** C10, as the code has it. [get_hematological_state] returns [None] as
    soon as one input is falsy ([None], the empty string, zero, [False]) and
    then leaves no trace: the rule table is not consulted. So whenever an
    analysis looks a key up, the rule file was loaded and the key is the join
    of one field per declared parameter in which the fields of
    [hemoglobin_state] and of [wbc_level] are not empty; it therefore differs
    from every table key made of one delimiter-free field per declared
    parameter whose field for [hemoglobin_state] or for [wbc_level] is
    empty. *)
Theorem get_hematological_state_falsy_never_matches (E : Engine) :
  (∀ h w, truthy h = false ∨ truthy w = false →
          get_hematological_state E h w = (Ok PyNone, []))
  ∧ (∀ w, get_hematological_state E (PyStr "") w = (Ok PyNone, []))
  ∧ (∀ h, get_hematological_state E h (PyStr "") = (Ok PyNone, []))
  ∧ (∀ patient_id snapshot_date res tr key,
       analyze_patient_hematological_state E patient_id snapshot_date = (res, tr) →
       EvLookup key ∈ tr →
       ∃ rule_data hf wf,
         rule_files E !! HEMATOLOGICAL_RULES E = Some (Parsed rule_data)
         ∧ hf ≠ "" ∧ wf ≠ ""
         ∧ key = String.concat ","
                   (map (λ p : string,
                           if bool_decide (p = "hemoglobin_state") then hf
                           else if bool_decide (p = "wbc_level") then wf else "")
                        (input_parameters rule_data))
         ∧ ∀ fields i,
             length fields = length (input_parameters rule_data) →
             (∀ f, f ∈ fields → commas f = 0%nat) →
             input_parameters rule_data !! i = Some "hemoglobin_state"
             ∨ input_parameters rule_data !! i = Some "wbc_level" →
             fields !! i = Some "" →
             key ≠ String.concat "," fields).
Proof.
  split_and!.
  - apply get_hematological_state_falsy.
  - intros w. by apply get_hematological_state_falsy; left.
  - intros h. by apply get_hematological_state_falsy; right.
  - intros patient_id snapshot_date res tr key Hrun Hin.
    destruct (analyze_lookup_inv E patient_id snapshot_date key) as (h & w & Hh & Hw & Hin').
    { by rewrite Hrun. }
    apply truthy_str_nonempty in Hh, Hw.
    destruct (rule_files E !! HEMATOLOGICAL_RULES E) as [[msg|rule_data]|] eqn:Hfs.
    + exfalso. revert Hin'. unfold apply_rule, load_rule. rewrite Hfs. simpl.
      by intros [=]%list_elem_of_singleton.
    + rewrite (apply_rule_parsed _ _ _ _ Hfs) in Hin'. simpl in Hin'.
      apply elem_of_cons in Hin' as [[=]|Hin'].
      apply list_elem_of_singleton in Hin'. injection Hin' as ->.
      unfold py_join. rewrite key_fields_two_states.
      exists rule_data, (py_str h), (py_str w). split_and!; [done..|].
      intros fields i Hlen Hfree Hparam Hempty Hkey. symmetry in Hkey.
      apply concat_comma_inj in Hkey;
        [|by rewrite length_map|by apply Forall_forall].
      rewrite Hkey, list_lookup_fmap in Hempty.
      destruct Hparam as [Hp|Hp]; rewrite Hp in Hempty; simpl in Hempty;
        by injection Hempty.
    + exfalso. revert Hin'. rewrite apply_rule_missing by done. simpl.
      by intros [=]%list_elem_of_singleton.
Qed.

(** ** Result shapes *)

(** A returned analysis is one of the two dictionaries, according to
    whether the mediator's frame was empty. *)
Lemma analyze_ok_inv (E : Engine) (patient_id : pyval) (snapshot_date : option snapshot)
    (r : gmap string field) (tr : list event) :
  analyze_patient_hematological_state E patient_id snapshot_date = (Ok r, tr) →
  let pid := strip (py_str patient_id) in
  let snap := snapshot_or_now E snapshot_date in
  (mediator_run E pid snap = Ok [] ∧ r = no_data_result pid snap)
  ∨ (∃ df h w hs, mediator_run E pid snap = Ok df ∧ df ≠ []
       ∧ r = normal_result pid snap h w hs df).
Proof.
  intros Hrun pid snap.
  destruct (snapshot_time_of E snap) as [t|e] eqn:Ht.
  2: { by rewrite (analyze_bad_snapshot _ _ _ e Ht) in Hrun. }
  destruct (mediator_run E pid snap) as [df|e] eqn:Hm.
  2: { by rewrite (analyze_mediator_raises _ _ _ t e Ht Hm) in Hrun. }
  destruct (decide (df = [])) as [->|Hdf].
  - rewrite (analyze_empty _ _ _ t Ht Hm) in Hrun. left. by simplify_eq.
  - rewrite (analyze_nonempty _ _ _ t df Ht Hm Hdf) in Hrun. right.
    destruct (get_hematological_state E _ _) as [[hs|e] tr'] eqn:Hhs; [|done].
    simpl in Hrun. exists df. do 3 eexists. split_and!; [done..|]. by simplify_eq.
Qed.


(** ** The population scan *)

Lemma error_record_fields (patient_id first_name last_name : pyval) (e : exn) :
  let r := error_record patient_id first_name last_name e in
  r !! "patient_id" = Some (FVal patient_id)
  ∧ r !! "first_name" = Some (FVal first_name)
  ∧ r !! "last_name" = Some (FVal last_name)
  ∧ r !! "error" = Some (FVal (PyStr (exn_str e)))
  ∧ dom r = list_to_set ["patient_id"; "first_name"; "last_name"; "error"].
Proof. by split_and!. Qed.

Lemma scan_roster_entries (E : Engine) (snapshot_date : option snapshot)
    (rows : list patient_row) (acc : list (gmap string field)) :
  ∃ tr, scan_roster E snapshot_date rows acc
        = (Ok (acc ++ (roster_entry E snapshot_date <$> rows)), tr).
Proof.
  revert acc. induction rows as [|[[[pid fn] ln] sex] rows IH]; intros acc; simpl.
  - exists []. by rewrite app_nil_r.
  - unfold roster_entry at 1.
    destruct (analyze_patient_hematological_state E pid snapshot_date)
      as [[a|e] t]; simpl.
    + destruct (IH (acc ++ [<["last_name":=FVal ln]> (<["first_name":=FVal fn]> a)]))
        as [tr ->].
      eexists. by rewrite <- app_assoc.
    + destruct (IH (acc ++ [error_record pid fn ln e])) as [tr ->].
      eexists. by rewrite <- app_assoc.
Qed.

(** C3. Over any roster the scan returns, with one entry per roster row
    in roster order. The entry of a row whose analysis raises is the error
    record built from the row's subject id and names and the exception's
    message; the entry of a row whose analysis returns is that result with
    the names added. So one subject's failure neither aborts the batch nor
    disturbs the other entries. *)
Theorem analyze_all_isolates_failures (E : Engine) (snapshot_date : option snapshot)
    (rows : list patient_row) :
  fetch_records E = Ok rows →
  ∃ results tr,
    analyze_all_patients_hematological_state E snapshot_date = (Ok results, tr)
    ∧ length results = length rows
    ∧ ∀ (i : nat) patient_id first_name last_name sex,
        rows !! i = Some (patient_id, first_name, last_name, sex) →
        match analyze_patient_hematological_state E patient_id snapshot_date with
        | (Raise e, _) =>
            ∃ r, results !! i = Some r
              ∧ r !! "patient_id" = Some (FVal patient_id)
              ∧ r !! "first_name" = Some (FVal first_name)
              ∧ r !! "last_name" = Some (FVal last_name)
              ∧ r !! "error" = Some (FVal (PyStr (exn_str e)))
              ∧ dom r = list_to_set ["patient_id"; "first_name"; "last_name"; "error"]
        | (Ok analysis, _) =>
            results !! i
            = Some (<["last_name" := FVal last_name]>
                   (<["first_name" := FVal first_name]> analysis))
        end.
Proof.
  intros Hrows. unfold analyze_all_patients_hematological_state.
  rewrite Hrows, bind_lift_ok.
  assert (∃ tr, (if bool_decide (rows = []) then mret []
                 else scan_roster E snapshot_date rows [])
                = (Ok (roster_entry E snapshot_date <$> rows), tr)) as [tr ->].
  { case_bool_decide as Hnil; [subst; by eexists|].
    apply (scan_roster_entries E snapshot_date rows []). }
  exists (roster_entry E snapshot_date <$> rows), tr.
  split_and!; [done|by rewrite length_fmap|].
  intros i pid fn ln sex Hi. rewrite list_lookup_fmap, Hi. simpl.
  destruct (analyze_patient_hematological_state E pid snapshot_date) as [[a|e] t]; [done|].
  eexists. split; [done|]. apply error_record_fields.
Qed.

(** * Worked instances *)

(** ** The specification's scenario *)

Example apply_rule_severe_low :
  apply_rule demo_files demo_rule_path
    (<["wbc_level" := PyStr "Low"]> (<["hemoglobin_state" := PyStr "Severe Anemia"]> ∅))
  = (Ok (PyStr "Critical Hematological State"),
     [EvLoadRule demo_rule_path; EvLookup "Severe Anemia,Low"]).
Proof. reflexivity. Qed.

Example apply_rule_mild_low :
  apply_rule demo_files demo_rule_path
    (<["wbc_level" := PyStr "Low"]> (<["hemoglobin_state" := PyStr "Mild Anemia"]> ∅))
  = (Ok PyNone, [EvLoadRule demo_rule_path; EvLookup "Mild Anemia,Low"]).
Proof. reflexivity. Qed.

(** A parameter the caller leaves out gives the empty field, and the lookup
    goes ahead with it. *)
Example apply_rule_missing_parameter :
  apply_rule demo_files demo_rule_path (<["wbc_level" := PyStr "Low"]> ∅)
  = (Ok (PyStr "Unclassified"), [EvLoadRule demo_rule_path; EvLookup ",Low"]).
Proof. reflexivity. Qed.

(** Scalars are coerced with [str]. *)
Example apply_rule_coerces :
  (apply_rule demo_files demo_rule_path
     (<["wbc_level" := PyInt (-7)]> (<["hemoglobin_state" := PyNone]> ∅))).2
  = [EvLoadRule demo_rule_path; EvLookup "None,-7"].
Proof. reflexivity. Qed.

(** Three subjects, the second of which fails: two analyses and one error
    record, in roster order. *)
Example analyze_all_demo :
  (analyze_all_patients_hematological_state demo_engine None).1
  = Ok [ <["last_name" := FVal (PyStr "Levi")]> (<["first_name" := FVal (PyStr "Dana")]>
           (normal_result "1" (SnapStr "1970-01-01 00:00:05") (PyStr "Severe Anemia")
              (PyStr "Low") (PyStr "Critical Hematological State") demo_frame));
         error_record (PyInt 2) (PyStr "Omer") (PyStr "Katz")
           (OtherException "OperationalError" "database is locked");
         <["last_name" := FVal (PyStr "Peretz")]> (<["first_name" := FVal (PyStr "Noa")]>
           (normal_result "3" (SnapStr "1970-01-01 00:00:05") (PyStr "Severe Anemia")
              PyNone PyNone demo_frame_no_wbc)) ].
Proof. reflexivity. Qed.

(** The join is only injective on delimiter-free fields: a value that
    contains a comma yields a key that reads equally as an empty hemoglobin
    field followed by ["Mild,Low"]. *)
Example analyze_delimiter_in_value :
  (analyze_patient_hematological_state collision_engine (PyInt 1) None).2
  = [EvLoadRule demo_rule_path; EvLookup ",Mild,Low"]
  ∧ ",Mild,Low" = String.concat "," [",Mild"; "Low"]
  ∧ ",Mild,Low" = String.concat "," [""; "Mild,Low"].
Proof. by split_and!. Qed.

(** ** Instances of the theorems *)

Lemma apply_rule_key_lookup_demo :
  demo_files !! demo_rule_path = Some (Parsed demo_rule)
  ∧ apply_rule demo_files demo_rule_path
      (<["wbc_level" := PyStr "Low"]> (<["hemoglobin_state" := PyStr "Severe Anemia"]> ∅))
    = (Ok (PyStr "Critical Hematological State"),
       [EvLoadRule demo_rule_path; EvLookup "Severe Anemia,Low"]).
Proof.
  assert (Hfile : demo_files !! demo_rule_path = Some (Parsed demo_rule))
    by reflexivity.
  split; [exact Hfile|].
  destruct (apply_rule_key_lookup demo_files demo_rule_path demo_rule
              (<["wbc_level" := PyStr "Low"]>
                 (<["hemoglobin_state" := PyStr "Severe Anemia"]> ∅)) Hfile) as [H _].
  rewrite H. reflexivity.
Defined.

Lemma get_latest_abstracted_value_latest_demo :
  (∃ i r, (i, r) ∈ boolean_index (concept_mask "Hemoglobin_Level" 5) demo_frame
     ∧ (∀ j r', (j, r') ∈ boolean_index (concept_mask "Hemoglobin_Level" 5) demo_frame →
                StartDateTime r' ≤ StartDateTime r)
     ∧ get_latest_abstracted_value demo_frame "Hemoglobin_Level" 5
       = (Ok (PyStr (Value r)), []))
  ∧ get_latest_abstracted_value
      [observation "Hemoglobin_Level" "Mild Anemia" 1 10;
       observation "Hemoglobin_Level" "Severe Anemia" 3 12] "Hemoglobin_Level" 5
    = (Ok (PyStr "Severe Anemia"), [])
  ∧ get_latest_abstracted_value
      [observation "Hemoglobin_Level" "Severe Anemia" 3 12;
       observation "Hemoglobin_Level" "Mild Anemia" 1 10] "Hemoglobin_Level" 5
    = (Ok (PyStr "Severe Anemia"), []).
Proof.
  destruct (get_latest_abstracted_value_latest demo_frame "Hemoglobin_Level" 5)
    as (_ & Hmax & Htwo).
  split.
  - apply Hmax. vm_compute. discriminate.
  - apply (Htwo (observation "Hemoglobin_Level" "Mild Anemia" 1 10)
                (observation "Hemoglobin_Level" "Severe Anemia" 3 12));
      simpl; first [reflexivity | lia].
Defined.

Lemma analyze_all_isolates_failures_demo :
  fetch_records demo_engine = Ok demo_roster
  ∧ ∃ results tr,
      analyze_all_patients_hematological_state demo_engine None = (Ok results, tr)
      ∧ length results = 3%nat
      ∧ results !! 0%nat
        = Some (<["last_name" := FVal (PyStr "Levi")]>
               (<["first_name" := FVal (PyStr "Dana")]>
               (normal_result "1" (SnapStr "1970-01-01 00:00:05") (PyStr "Severe Anemia")
                  (PyStr "Low") (PyStr "Critical Hematological State") demo_frame)))
      ∧ (∃ r, results !! 1%nat = Some r
           ∧ r !! "patient_id" = Some (FVal (PyInt 2))
           ∧ r !! "first_name" = Some (FVal (PyStr "Omer"))
           ∧ r !! "last_name" = Some (FVal (PyStr "Katz"))
           ∧ r !! "error" = Some (FVal (PyStr "database is locked")))
      ∧ results !! 2%nat
        = Some (<["last_name" := FVal (PyStr "Peretz")]>
               (<["first_name" := FVal (PyStr "Noa")]>
               (normal_result "3" (SnapStr "1970-01-01 00:00:05") (PyStr "Severe Anemia")
                  PyNone PyNone demo_frame_no_wbc))).
Proof.
  split; [reflexivity|].
  destruct (analyze_all_isolates_failures demo_engine None demo_roster eq_refl)
    as (results & tr & Hrun & Hlen & Hrows).
  exists results, tr. split_and!; [exact Hrun|exact Hlen| | |].
  - exact (Hrows 0%nat (PyInt 1) (PyStr "Dana") (PyStr "Levi") (PyStr "F") eq_refl).
  - destruct (Hrows 1%nat (PyInt 2) (PyStr "Omer") (PyStr "Katz") (PyStr "M") eq_refl)
      as (r & Hr & Hid & Hfn & Hln & Herr & _).
    exists r. split_and!; [exact Hr|exact Hid|exact Hfn|exact Hln|exact Herr].
  - exact (Hrows 2%nat (PyStr " 3 ") (PyStr "Noa") (PyStr "Peretz") (PyStr "F") eq_refl).
Defined.

Lemma analyze_incomplete_inputs_no_lookup_demo :
  get_latest_abstracted_value demo_frame_no_wbc "WBC_Level" 5 = (Ok PyNone, [])
  ∧ ∃ r, analyze_patient_hematological_state demo_engine (PyStr " 3 ") None = (Ok r, [])
         ∧ r !! "hematological_state" = Some (FVal PyNone).
Proof.
  assert (Hw : get_latest_abstracted_value demo_frame_no_wbc "WBC_Level" 5
               = (Ok PyNone, [])) by reflexivity.
  split; [exact Hw|].
  apply (proj2 (analyze_incomplete_inputs_no_lookup demo_engine)
           (PyStr " 3 ") None 5 demo_frame_no_wbc).
  - reflexivity.
  - reflexivity.
  - discriminate.
  - right. exact Hw.
Defined.

Lemma analyze_no_data_demo :
  ∃ r, analyze_patient_hematological_state demo_engine (PyInt 4) None = (Ok r, [])
       ∧ r !! "hematological_state" = Some (FVal PyNone)
       ∧ r !! "error" = Some (FVal (PyStr "No abstracted data available for this patient")).
Proof.
  destruct (analyze_no_data demo_engine (PyInt 4) None 5)
    as (r & Hrun & _ & _ & Hhs & Herr & _).
  - reflexivity.
  - reflexivity.
  - exists r. split_and!; [exact Hrun|exact Hhs|exact Herr].
Defined.

Lemma load_rule_not_found_propagates_demo :
  demo_files !! "rules/absent.json" = None
  ∧ load_rule demo_files "rules/absent.json"
    = (Raise (FileNotFoundError "Rule file not found: rules/absent.json"),
       [EvLoadRule "rules/absent.json"])
  ∧ apply_rule demo_files "rules/absent.json" ∅
    = (Raise (FileNotFoundError "Rule file not found: rules/absent.json"),
       [EvLoadRule "rules/absent.json"]).
Proof.
  assert (Hnone : demo_files !! "rules/absent.json" = None) by reflexivity.
  destruct (load_rule_not_found_propagates demo_files "rules/absent.json" Hnone)
    as (Hload & Happly & _).
  split_and!; [exact Hnone|exact Hload|exact (Happly ∅)].
Defined.

Lemma get_latest_abstracted_value_first_of_ties_demo :
  get_latest_abstracted_value demo_frame "Hemoglobin_Level" 5
  = (Ok (PyStr "Severe Anemia"), []).
Proof.
  apply (get_latest_abstracted_value_first_of_ties
           [observation "Hemoglobin_Level" "Mild Anemia" 1 10;
            observation "WBC_Level" "Low" 2 8]
           [observation "Hemoglobin_Level" "Moderate Anemia" 3 12]
           (observation "Hemoglobin_Level" "Severe Anemia" 3 12)
           "Hemoglobin_Level" 5).
  - reflexivity.
  - simpl. lia.
  - simpl. lia.
  - intros r' Hin Hc _ _.
    repeat (apply elem_of_cons in Hin as [->|Hin]);
      [simpl; lia|discriminate Hc|by apply elem_of_nil in Hin].
  - intros r' Hin _ _ _.
    repeat (apply elem_of_cons in Hin as [->|Hin]);
      [simpl; lia|by apply elem_of_nil in Hin].
Defined.



Lemma get_hematological_state_falsy_never_matches_demo :
  get_hematological_state demo_engine (PyStr "") (PyStr "Low") = (Ok PyNone, [])
  ∧ EvLookup "Severe Anemia,Low"
    ∈ (analyze_patient_hematological_state demo_engine (PyInt 1) None).2
  ∧ "Severe Anemia,Low" ≠ String.concat "," [""; "Low"].
Proof.
  destruct (get_hematological_state_falsy_never_matches demo_engine)
    as (Hfalsy & _ & _ & Hkeys).
  assert (Hin : EvLookup "Severe Anemia,Low"
                ∈ (analyze_patient_hematological_state demo_engine (PyInt 1) None).2)
    by (vm_compute; apply list_elem_of_In; right; left; reflexivity).
  split_and!; [apply Hfalsy; left; reflexivity|exact Hin|].
  destruct (Hkeys (PyInt 1) None _ _ "Severe Anemia,Low" eq_refl Hin)
    as (rule_data & hf & wf & Hfile & _ & _ & _ & Hne).
  assert (Hrd : rule_data = demo_rule).
  { assert (Hdemo : rule_files demo_engine !! HEMATOLOGICAL_RULES demo_engine
                    = Some (Parsed demo_rule)) by reflexivity.
    rewrite Hdemo in Hfile. by injection Hfile. }
  subst rule_data.
  apply (Hne [""; "Low"] 0%nat).
  - reflexivity.
  - intros f Hf.
    repeat (apply elem_of_cons in Hf as [->|Hf]);
      [reflexivity|reflexivity|by apply elem_of_nil in Hf].
  - left. reflexivity.
  - reflexivity.
Defined.

(** * Further properties of the code *)

(** ** The rule processor *)

Lemma key_fields_ext (params : list string) (iv1 iv2 : gmap string pyval) :
  (∀ p, p ∈ params →
        py_str (dict_get iv1 p (PyStr "")) = py_str (dict_get iv2 p (PyStr ""))) →
  key_fields params iv1 = key_fields params iv2.
Proof.
  intros Hagree. unfold key_fields. apply map_ext_in. intros p Hp.
  apply Hagree. by apply list_elem_of_In.
Qed.

Lemma apply_rule_ext (fs : filesystem) (rule_path : string) (iv1 iv2 : gmap string pyval) :
  (∀ rule_data, fs !! rule_path = Some (Parsed rule_data) →
     key_fields (input_parameters rule_data) iv1
     = key_fields (input_parameters rule_data) iv2) →
  apply_rule fs rule_path iv1 = apply_rule fs rule_path iv2.
Proof.
  intros Hagree. destruct (fs !! rule_path) as [[msg|rule_data]|] eqn:Hfs.
  - unfold apply_rule, load_rule. by rewrite Hfs.
  - by rewrite !(apply_rule_parsed _ _ _ _ Hfs), (Hagree rule_data).
  - by rewrite !apply_rule_missing.
Qed.

(** X1. The outcome of [apply_rule] depends on the input mapping only
    through the string forms of the declared parameters: two mappings that
    give every declared parameter the same string (an absent one counting as
    the empty string) get the same outcome and cause the same events,
    whatever the types of the values and whatever else the mappings hold. *)
Theorem apply_rule_string_forms_only (fs : filesystem) (rule_path : string)
    (rule_data : RuleDefinition) (iv1 iv2 : gmap string pyval) :
  fs !! rule_path = Some (Parsed rule_data) →
  (∀ p, p ∈ input_parameters rule_data →
        match iv1 !! p with Some v => py_str v | None => "" end
        = match iv2 !! p with Some v => py_str v | None => "" end) →
  apply_rule fs rule_path iv1 = apply_rule fs rule_path iv2.
Proof.
  intros Hfs Hagree. apply apply_rule_ext. intros rd Hrd.
  assert (rd = rule_data) as -> by congruence.
  apply key_fields_ext. intros p Hp. specialize (Hagree p Hp). unfold dict_get.
  by destruct (iv1 !! p), (iv2 !! p).
Qed.

(** X2. An input for a name the rule does not declare is ignored: adding
    it, with any value, changes neither the outcome nor the events. *)
Theorem apply_rule_ignores_undeclared (fs : filesystem) (rule_path : string)
    (rule_data : RuleDefinition) (iv : gmap string pyval) (name : string) (v : pyval) :
  fs !! rule_path = Some (Parsed rule_data) →
  name ∉ input_parameters rule_data →
  apply_rule fs rule_path (<[name := v]> iv) = apply_rule fs rule_path iv.
Proof.
  intros Hfs Hname. apply apply_rule_ext. intros rd Hrd.
  assert (rd = rule_data) as -> by congruence.
  apply key_fields_ext. intros p Hp. unfold dict_get.
  rewrite lookup_insert_ne; [done|]. by intros ->.
Qed.

(** X3. A resource that exists but does not decode makes [load_rule]
    raise the decoding error; [apply_rule] and [get_hematological_state] (for
    two truthy values) raise the same error, after the one load and without
    any lookup. *)
Theorem load_rule_malformed_propagates (fs : filesystem) (rule_path msg : string) :
  fs !! rule_path = Some (Malformed msg) →
  load_rule fs rule_path = (Raise (JSONDecodeError msg), [EvLoadRule rule_path])
  ∧ (∀ input_values,
       apply_rule fs rule_path input_values
       = (Raise (JSONDecodeError msg), [EvLoadRule rule_path]))
  ∧ (∀ E h w,
       rule_files E = fs → HEMATOLOGICAL_RULES E = rule_path →
       truthy h = true → truthy w = true →
       get_hematological_state E h w
       = (Raise (JSONDecodeError msg), [EvLoadRule rule_path])).
Proof.
  intros Hfs.
  assert (Happly : ∀ iv, apply_rule fs rule_path iv
                         = (Raise (JSONDecodeError msg), [EvLoadRule rule_path])).
  { intros iv. unfold apply_rule, load_rule. by rewrite Hfs. }
  split_and!; [unfold load_rule; by rewrite Hfs|done|].
  intros E h w <- <- Hh Hw. by rewrite get_hematological_state_truthy.
Qed.

Lemma apply_rule_returns_or_raises (fs : filesystem) (rule_path : string)
    (input_values : gmap string pyval) :
  (∃ e, apply_rule fs rule_path input_values = (Raise e, [EvLoadRule rule_path]))
  ∨ (∃ v key, apply_rule fs rule_path input_values
              = (Ok v, [EvLoadRule rule_path; EvLookup key])).
Proof.
  destruct (fs !! rule_path) as [[msg|rule_data]|] eqn:Hfs.
  - left. exists (JSONDecodeError msg). unfold apply_rule, load_rule. by rewrite Hfs.
  - right. rewrite (apply_rule_parsed _ _ _ _ Hfs). by do 2 eexists.
  - left. rewrite apply_rule_missing by done. by eexists.
Qed.

Lemma apply_rule_trace_parsed (fs : filesystem) (rule_path : string)
    (rule_data : RuleDefinition) (iv : gmap string pyval) :
  fs !! rule_path = Some (Parsed rule_data) →
  (apply_rule fs rule_path iv).2
  = [EvLoadRule rule_path;
     EvLookup (String.concat "," (key_fields (input_parameters rule_data) iv))].
Proof. intros Hfs. by rewrite (apply_rule_parsed _ _ _ _ Hfs). Qed.

Lemma sum_list_commas_Forall (fs : list string) :
  Forall (λ f, commas f = 0%nat) fs → sum_list (commas <$> fs) = 0%nat.
Proof. induction 1 as [|f fs Hf _ IH]; csimpl; [done|lia]. Qed.

(** X5. Keys do not collide on delimiter-free values: when the string
    forms that one input mapping gives the declared parameters contain no
    comma, another mapping makes [apply_rule] look up the same key only if it
    gives every declared parameter the same string form. *)
Theorem apply_rule_same_key_same_fields (fs : filesystem) (rule_path : string)
    (rule_data : RuleDefinition) (iv1 iv2 : gmap string pyval) :
  fs !! rule_path = Some (Parsed rule_data) →
  (∀ p, p ∈ input_parameters rule_data →
        commas (py_str (dict_get iv1 p (PyStr ""))) = 0%nat) →
  (apply_rule fs rule_path iv1).2 = (apply_rule fs rule_path iv2).2 →
  ∀ p, p ∈ input_parameters rule_data →
       py_str (dict_get iv1 p (PyStr "")) = py_str (dict_get iv2 p (PyStr "")).
Proof.
  intros Hfs Hfree Htr p Hp.
  rewrite !(apply_rule_trace_parsed _ _ _ _ Hfs) in Htr. injection Htr as Hkey.
  apply concat_comma_inj in Hkey.
  - apply list_elem_of_lookup in Hp as [i Hi].
    apply (f_equal (λ l, l !! i)) in Hkey. unfold key_fields in Hkey.
    rewrite !list_lookup_fmap, Hi in Hkey. by injection Hkey.
  - unfold key_fields. by rewrite !length_map.
  - unfold key_fields. apply Forall_forall. intros f Hf.
    apply list_elem_of_fmap in Hf as (p' & -> & Hp'). by apply Hfree.
Qed.

(** X6. A key that is looked up contains at least [n - 1] commas, [n] being
    the number of declared parameters, and exactly [n - 1] just when no field
    contains a comma. So a table key with fewer commas is never matched, and
    one with more is matched only by a value that contains a comma. *)
Theorem apply_rule_key_arity (fs : filesystem) (rule_path : string)
    (rule_data : RuleDefinition) (iv : gmap string pyval) (key : string) :
  fs !! rule_path = Some (Parsed rule_data) →
  EvLookup key ∈ (apply_rule fs rule_path iv).2 →
  (pred (length (input_parameters rule_data)) ≤ commas key)%nat
  ∧ (commas key = pred (length (input_parameters rule_data))
     ↔ ∀ p, p ∈ input_parameters rule_data →
            commas (py_str (dict_get iv p (PyStr ""))) = 0%nat).
Proof.
  intros Hfs Hin. rewrite (apply_rule_trace_parsed _ _ _ _ Hfs) in Hin.
  apply elem_of_cons in Hin as [[=]|Hin].
  apply list_elem_of_singleton in Hin. injection Hin as ->.
  rewrite commas_concat. unfold key_fields at 1 3. rewrite length_map.
  split; [lia|]. split.
  - intros Hsum p Hp.
    assert (Hzero : sum_list (commas <$> key_fields (input_parameters rule_data) iv)
                    = 0%nat) by lia.
    apply sum_list_commas_0 in Hzero. rewrite Forall_forall in Hzero.
    apply Hzero. unfold key_fields. apply list_elem_of_fmap. by exists p.
  - intros Hfree. rewrite sum_list_commas_Forall; [lia|].
    apply Forall_forall. intros f Hf. unfold key_fields in Hf.
    apply list_elem_of_fmap in Hf as (p & -> & Hp). by apply Hfree.
Qed.

(** ** The temporal value extractor *)

Lemma filter_none (mask : Row → bool) (rows : list Row) :
  (∀ r, r ∈ rows → mask r = false) → List.filter mask rows = [].
Proof.
  induction rows as [|r rows IH]; simpl; [done|]. intros Hall.
  rewrite (Hall r) by left. apply IH. intros r' Hr'. apply Hall. by right.
Qed.

(** The extractor's answer is [None] when no row is a candidate, and
    otherwise the value of a candidate that starts no earlier than any
    other. *)
Lemma spec_extractLatest_row (df : DataFrame) (c : string) (t : Z) :
  (spec_extractLatest df c t = PyNone ∧ ∀ r, r ∈ df → concept_mask c t r = false)
  ∨ (∃ r, r ∈ df ∧ concept_mask c t r = true
       ∧ (∀ r', r' ∈ df → concept_mask c t r' = true →
                StartDateTime r' ≤ StartDateTime r)
       ∧ spec_extractLatest df c t = PyStr (Value r)).
Proof.
  destruct (spec_extractLatest df c t) as [|v| |] eqn:Hspec.
  - left. split; [done|]. by apply spec_extractLatest_none.
  - right. unfold spec_extractLatest in Hspec.
    destruct (List.filter (concept_mask c t) df) as [|b kept] eqn:Hf; [done|].
    injection Hspec as <-.
    pose proof (fold_later_start_in kept b) as Hin. rewrite <- Hf in Hin.
    apply list_elem_of_In, filter_In in Hin as [Hin Hm].
    exists (fold_left later_start kept b).
    split_and!; [by apply list_elem_of_In|done| |done].
    intros r' Hr' Hm'. apply fold_later_start_max. rewrite <- Hf.
    apply list_elem_of_In, filter_In. split; [by apply list_elem_of_In|done].
  - unfold spec_extractLatest in Hspec. by destruct (List.filter _ _).
  - unfold spec_extractLatest in Hspec. by destruct (List.filter _ _).
Qed.

(** X7. Rows that are not candidates never influence the extractor: rows
    of another concept, or whose interval does not contain the snapshot
    instant, can be inserted anywhere in the frame, or removed, without
    changing the result. *)
Theorem get_latest_abstracted_value_ignores_others
    (df1 others df2 : DataFrame) (c : string) (t : Z) :
  (∀ r, r ∈ others →
        Concept_Name r ≠ c ∨ t < StartDateTime r ∨ EndDateTime r < t) →
  get_latest_abstracted_value (df1 ++ others ++ df2) c t
  = get_latest_abstracted_value (df1 ++ df2) c t.
Proof.
  intros Hothers. rewrite !get_latest_abstracted_value_spec. do 2 f_equal.
  unfold spec_extractLatest. rewrite !List.filter_app.
  rewrite (filter_none _ others); [done|].
  intros r Hr. destruct (concept_mask c t r) eqn:Hm; [|done].
  apply concept_mask_spec in Hm as (? & ? & ?).
  destruct (Hothers r Hr) as [?|[?|?]]; [done|lia|lia].
Qed.

(** X8. The order of the rows matters only among tied candidates: if any
    two candidates with the same [StartDateTime] carry the same [Value], every
    reordering of the frame gives the same result. *)
Theorem get_latest_abstracted_value_permutation (df df' : DataFrame) (c : string) (t : Z) :
  df ≡ₚ df' →
  (∀ r1 r2, r1 ∈ df → r2 ∈ df →
     Concept_Name r1 = c → StartDateTime r1 ≤ t → t ≤ EndDateTime r1 →
     Concept_Name r2 = c → StartDateTime r2 ≤ t → t ≤ EndDateTime r2 →
     StartDateTime r1 = StartDateTime r2 → Value r1 = Value r2) →
  get_latest_abstracted_value df c t = get_latest_abstracted_value df' c t.
Proof.
  intros Hperm Hties. rewrite !get_latest_abstracted_value_spec. do 2 f_equal.
  destruct (spec_extractLatest_row df c t) as [[-> Hnone]|(r & Hr & Hm & Hmax & ->)];
    destruct (spec_extractLatest_row df' c t)
      as [[-> Hnone']|(r' & Hr' & Hm' & Hmax' & ->)].
  - done.
  - rewrite <- Hperm in Hr'. by rewrite (Hnone r' Hr') in Hm'.
  - rewrite Hperm in Hr. by rewrite (Hnone' r Hr) in Hm.
  - f_equal. rewrite <- Hperm in Hr'.
    assert (StartDateTime r = StartDateTime r') as Heq.
    { apply Z.le_antisymm; [|by apply Hmax].
      apply Hmax'; [by rewrite <- Hperm|done]. }
    apply concept_mask_spec in Hm as (? & ? & ?).
    apply concept_mask_spec in Hm' as (? & ? & ?).
    by apply Hties.
Qed.

(** ** The single-subject analyzer *)

(** X9. End to end on complete data: when the snapshot date converts, the
    mediator returns a non-empty frame, both concepts extract to non-empty
    values and the rule resource decodes, the analysis returns the normal
    result whose [hematological_state] is the table entry under the key built
    from the two values in the rule's declared order ([None] if there is no
    such entry), whose [individual_states] are the two extracted values and
    whose [abstracted_data] is the mediator's frame; the rule was loaded once
    and that key looked up once. *)
Theorem analyze_complete_data (E : Engine) (patient_id : pyval)
    (snapshot_date : option snapshot) (t : Z) (df : DataFrame) (h w : string)
    (rule_data : RuleDefinition) :
  let pid := strip (py_str patient_id) in
  let snap := snapshot_or_now E snapshot_date in
  let key := String.concat ","
               (map (λ p : string,
                       if bool_decide (p = "hemoglobin_state") then h
                       else if bool_decide (p = "wbc_level") then w else "")
                    (input_parameters rule_data)) in
  snapshot_time_of E snap = Ok t →
  mediator_run E pid snap = Ok df → df ≠ [] →
  get_latest_abstracted_value df "Hemoglobin_Level" t = (Ok (PyStr h), []) →
  get_latest_abstracted_value df "WBC_Level" t = (Ok (PyStr w), []) →
  h ≠ "" → w ≠ "" →
  rule_files E !! HEMATOLOGICAL_RULES E = Some (Parsed rule_data) →
  ∃ r, analyze_patient_hematological_state E patient_id snapshot_date
       = (Ok r, [EvLoadRule (HEMATOLOGICAL_RULES E); EvLookup key])
     ∧ r !! "hematological_state"
       = Some (FVal (match rules rule_data !! key with
                     | Some outcome => outcome
                     | None => PyNone
                     end))
     ∧ r !! "individual_states"
       = Some (FStates (<["wbc_level" := PyStr w]>
                       (<["hemoglobin_state" := PyStr h]> ∅)))
     ∧ r !! "abstracted_data" = Some (FFrame df)
     ∧ r !! "patient_id" = Some (FVal (PyStr pid))
     ∧ r !! "error" = None.
Proof.
  intros pid snap key Ht Hm Hdf Hh Hw Hhne Hwne Hfs.
  rewrite get_latest_abstracted_value_spec in Hh, Hw.
  injection Hh as Hh. injection Hw as Hw.
  rewrite (analyze_nonempty _ _ _ t df Ht Hm Hdf), Hh, Hw.
  rewrite get_hematological_state_truthy;
    [|simpl; by rewrite bool_decide_eq_false_2..].
  rewrite (apply_rule_parsed _ _ _ _ Hfs). unfold py_join.
  rewrite key_fields_two_states. fold key. simpl.
  eexists. split; [done|]. unfold dict_get.
  split_and!; [|done..]. subst key. by destruct (rules rule_data !! _).
Qed.


Lemma truthy_PyStr (v : pyval) :
  (v = PyNone ∨ ∃ s, v = PyStr s) →
  truthy v = true ↔ ∃ s, v = PyStr s ∧ s ≠ "".
Proof.
  intros [->|[s ->]]; simpl.
  - split; [done|]. by intros (? & [=] & _).
  - rewrite negb_true_iff, bool_decide_eq_false. split.
    + intros Hs. by exists s.
    + by intros (? & [= <-] & ?).
Qed.

Lemma spec_extractLatest_shape (df : DataFrame) (c : string) (t : Z) :
  spec_extractLatest df c t = PyNone ∨ ∃ s, spec_extractLatest df c t = PyStr s.
Proof.
  unfold spec_extractLatest. destruct (List.filter _ _); [by left|right; by eexists].
Qed.

Lemma analyze_trace_shape (E : Engine) (patient_id : pyval)
    (snapshot_date : option snapshot) :
  let tr := (analyze_patient_hematological_state E patient_id snapshot_date).2 in
  tr = [] ∨ tr = [EvLoadRule (HEMATOLOGICAL_RULES E)]
  ∨ ∃ key, tr = [EvLoadRule (HEMATOLOGICAL_RULES E); EvLookup key].
Proof.
  simpl.
  destruct (snapshot_time_of E (snapshot_or_now E snapshot_date)) as [t|e0] eqn:Ht.
  2: { rewrite (analyze_bad_snapshot _ _ _ e0 Ht). by left. }
  destruct (mediator_run E (strip (py_str patient_id))
              (snapshot_or_now E snapshot_date)) as [df|e0] eqn:Hm.
  2: { rewrite (analyze_mediator_raises _ _ _ t e0 Ht Hm). by left. }
  destruct (decide (df = [])) as [->|Hdf].
  { rewrite (analyze_empty _ _ _ t Ht Hm). by left. }
  rewrite (analyze_nonempty _ _ _ t df Ht Hm Hdf), bind_mret_trace.
  set (h := spec_extractLatest df "Hemoglobin_Level" t).
  set (w := spec_extractLatest df "WBC_Level" t).
  destruct (truthy h) eqn:Hh; [destruct (truthy w) eqn:Hw|].
  - rewrite get_hematological_state_truthy by done.
    destruct (apply_rule_returns_or_raises (rule_files E) (HEMATOLOGICAL_RULES E)
                (<["wbc_level" := w]> (<["hemoglobin_state" := h]> ∅)))
      as [(e & ->)|(v & key & ->)]; simpl; [right; by left|right; right; by eexists].
  - rewrite get_hematological_state_falsy by auto. by left.
  - rewrite get_hematological_state_falsy by auto. by left.
Qed.

(** X11. An analysis touches the rule resource at most once and only on
    complete data: its trace is empty, or one load, or one load followed by
    one lookup; and the rule is loaded exactly when the snapshot date
    converted, the mediator returned a frame, and both concepts extracted to
    non-empty values. *)
Theorem analyze_rule_access (E : Engine) (patient_id : pyval)
    (snapshot_date : option snapshot) :
  let pid := strip (py_str patient_id) in
  let snap := snapshot_or_now E snapshot_date in
  let tr := (analyze_patient_hematological_state E patient_id snapshot_date).2 in
  (tr = [] ∨ tr = [EvLoadRule (HEMATOLOGICAL_RULES E)]
   ∨ ∃ key, tr = [EvLoadRule (HEMATOLOGICAL_RULES E); EvLookup key])
  ∧ (tr ≠ []
     ↔ ∃ t df h w,
         snapshot_time_of E snap = Ok t ∧ mediator_run E pid snap = Ok df
         ∧ get_latest_abstracted_value df "Hemoglobin_Level" t = (Ok (PyStr h), [])
         ∧ get_latest_abstracted_value df "WBC_Level" t = (Ok (PyStr w), [])
         ∧ h ≠ "" ∧ w ≠ "").
Proof.
  intros pid snap tr. subst tr.
  destruct (snapshot_time_of E snap) as [t|e0] eqn:Ht.
  2: { rewrite (analyze_bad_snapshot _ _ _ e0 Ht). simpl.
       split; [by left|]. split; [done|]. by intros (? & ? & ? & ? & [=] & _). }
  destruct (mediator_run E pid snap) as [df|e0] eqn:Hm.
  2: { rewrite (analyze_mediator_raises _ _ _ t e0 Ht Hm). simpl.
       split; [by left|]. split; [done|]. by intros (? & ? & ? & ? & _ & [=] & _). }
  destruct (decide (df = [])) as [->|Hdf].
  { rewrite (analyze_empty _ _ _ t Ht Hm). simpl.
    split; [by left|]. split; [done|].
    intros (? & ? & ? & ? & [= <-] & [= <-] & Hh & _).
    by rewrite get_latest_abstracted_value_spec in Hh. }
  rewrite (analyze_nonempty _ _ _ t df Ht Hm Hdf), bind_mret_trace.
  set (h := spec_extractLatest df "Hemoglobin_Level" t).
  set (w := spec_extractLatest df "WBC_Level" t).
  pose proof (truthy_PyStr h (spec_extractLatest_shape _ _ _)) as Hth.
  pose proof (truthy_PyStr w (spec_extractLatest_shape _ _ _)) as Htw.
  assert (Hiff : (∃ t' df' h' w',
                    Ok t = Ok t' ∧ Ok df = Ok df'
                    ∧ get_latest_abstracted_value df' "Hemoglobin_Level" t'
                      = (Ok (PyStr h'), [])
                    ∧ get_latest_abstracted_value df' "WBC_Level" t'
                      = (Ok (PyStr w'), [])
                    ∧ h' ≠ "" ∧ w' ≠ "")
                 ↔ truthy h = true ∧ truthy w = true).
  { rewrite Hth, Htw. split.
    - intros (t' & df' & h' & w' & [= <-] & [= <-] & Hh & Hw & ? & ?).
      rewrite get_latest_abstracted_value_spec in Hh, Hw.
      injection Hh as Hh. injection Hw as Hw. split; by eexists.
    - intros [(h' & Hh & ?) (w' & Hw & ?)]. exists t, df, h', w'.
      rewrite !get_latest_abstracted_value_spec. fold h w. by rewrite Hh, Hw. }
  rewrite Hiff. clear Hiff Hth Htw.
  destruct (truthy h) eqn:Hh; [destruct (truthy w) eqn:Hw|].
  - rewrite get_hematological_state_truthy by done.
    destruct (apply_rule_returns_or_raises (rule_files E) (HEMATOLOGICAL_RULES E)
                (<["wbc_level" := w]> (<["hemoglobin_state" := h]> ∅)))
      as [(e & ->)|(v & key & ->)]; simpl.
    + split; [right; by left|]. by split.
    + split; [right; right; by eexists|]. by split.
  - rewrite get_hematological_state_falsy by auto. simpl.
    split; [by left|]. split; [done|]. by intros [_ [=]].
  - rewrite get_hematological_state_falsy by auto. simpl.
    split; [by left|]. split; [done|]. by intros [[=] _].
Qed.

(** *** Normalisation of the subject id *)

Section strip_facts.
Implicit Types (s ws : string) (c : ascii).

Lemma str_app_cons c s1 s2 : String c s1 +:+ s2 = String c (s1 +:+ s2).
Proof. done. Qed.

Lemma str_app_nil_r s : s +:+ "" = s.
Proof. induction s as [|c s IH]; [done|]. by rewrite str_app_cons, IH. Qed.

Lemma str_app_assoc s1 s2 s3 : (s1 +:+ s2) +:+ s3 = s1 +:+ (s2 +:+ s3).
Proof. induction s1 as [|c s1 IH]; [done|]. by rewrite !str_app_cons, IH. Qed.

Lemma rev_app_spec s1 s2 : String.rev_app s1 s2 = String.rev s1 +:+ s2.
Proof.
  revert s2. induction s1 as [|c s1 IH]; intros s2; [done|].
  unfold String.rev. simpl. by rewrite (IH (String c s2)), (IH (String c "")), str_app_assoc.
Qed.

Lemma rev_append s1 s2 : String.rev (s1 +:+ s2) = String.rev s2 +:+ String.rev s1.
Proof.
  induction s1 as [|c s1 IH]; [by rewrite str_app_nil_r|].
  rewrite str_app_cons. unfold String.rev at 1 3. simpl.
  by rewrite !rev_app_spec, IH, str_app_assoc.
Qed.

Lemma all_space_app s1 s2 : all_space (s1 +:+ s2) = all_space s1 && all_space s2.
Proof.
  induction s1 as [|c s1 IH]; [done|].
  rewrite str_app_cons. simpl. by rewrite IH, andb_assoc.
Qed.

Lemma all_space_rev s : all_space (String.rev s) = all_space s.
Proof.
  induction s as [|c s IH]; [done|].
  unfold String.rev. simpl. rewrite rev_app_spec, all_space_app, IH. simpl.
  by rewrite andb_true_r, andb_comm.
Qed.

Lemma lstrip_all_space ws : all_space ws = true → lstrip ws = "".
Proof.
  induction ws as [|c ws IH]; simpl; [done|].
  intros [-> ?]%andb_true_iff. by apply IH.
Qed.

Lemma lstrip_spaces ws s : all_space ws = true → lstrip (ws +:+ s) = lstrip s.
Proof.
  induction ws as [|c ws IH]; [done|]. simpl.
  intros [Hc ?]%andb_true_iff. rewrite ?str_app_cons. simpl. rewrite Hc. by apply IH.
Qed.

Lemma rstrip_spaces s ws : all_space ws = true → rstrip (s +:+ ws) = rstrip s.
Proof.
  intros Hws. unfold rstrip. rewrite rev_append, lstrip_spaces; [done|].
  by rewrite all_space_rev.
Qed.

Lemma strip_spaces_r s ws : all_space ws = true → strip (s +:+ ws) = strip s.
Proof.
  intros Hws. unfold strip. induction s as [|c s IH].
  - simpl. by rewrite lstrip_all_space.
  - rewrite str_app_cons. simpl. destruct (is_py_space c); [done|].
    by rewrite <- str_app_cons, rstrip_spaces.
Qed.

Lemma strip_padding ws1 s ws2 :
  all_space ws1 = true → all_space ws2 = true → strip (ws1 +:+ s +:+ ws2) = strip s.
Proof.
  intros H1 H2. unfold strip at 1. rewrite lstrip_spaces by done.
  by apply strip_spaces_r.
Qed.
End strip_facts.

(** X12. The subject id is taken up to its string form and surrounding
    whitespace: padding the string form of an id with whitespace on either
    side, whatever the type of the id, gives the same analysis (result,
    exception and events alike). *)
Theorem analyze_patient_id_padding (E : Engine) (patient_id : pyval)
    (snapshot_date : option snapshot) (ws1 ws2 : string) :
  all_space ws1 = true → all_space ws2 = true →
  analyze_patient_hematological_state E
    (PyStr (ws1 +:+ py_str patient_id +:+ ws2)) snapshot_date
  = analyze_patient_hematological_state E patient_id snapshot_date.
Proof.
  intros H1 H2. unfold analyze_patient_hematological_state.
  change (py_str (PyStr ?s)) with s. by rewrite strip_padding.
Qed.

(** ** The population scan *)

Lemma scan_roster_run (E : Engine) (snapshot_date : option snapshot)
    (rows : list patient_row) (acc : list (gmap string field)) :
  scan_roster E snapshot_date rows acc
  = (Ok (acc ++ (roster_entry E snapshot_date <$> rows)),
     concat ((λ row : patient_row,
                (analyze_patient_hematological_state E row.1.1.1 snapshot_date).2)
             <$> rows)).
Proof.
  revert acc. induction rows as [|[[[pid fn] ln] sex] rows IH]; intros acc; simpl.
  - by rewrite app_nil_r.
  - unfold roster_entry at 1.
    destruct (analyze_patient_hematological_state E pid snapshot_date)
      as [[a|e] t]; simpl; rewrite IH, <- app_assoc, ?app_nil_r; done.
Qed.

Lemma analyze_all_run (E : Engine) (snapshot_date : option snapshot)
    (rows : list patient_row) :
  fetch_records E = Ok rows →
  analyze_all_patients_hematological_state E snapshot_date
  = (Ok (roster_entry E snapshot_date <$> rows),
     concat ((λ row : patient_row,
                (analyze_patient_hematological_state E row.1.1.1 snapshot_date).2)
             <$> rows)).
Proof.
  intros Hrows. unfold analyze_all_patients_hematological_state.
  rewrite Hrows, bind_lift_ok. case_bool_decide as Hnil; [by subst|].
  apply (scan_roster_run E snapshot_date rows []).
Qed.

(** X13. Fault isolation stops at the roster: the scan raises exactly when
    obtaining the roster raises, with that exception and before any subject
    is analysed. *)
Theorem analyze_all_raises_iff (E : Engine) (snapshot_date : option snapshot)
    (e : exn) (tr : list event) :
  analyze_all_patients_hematological_state E snapshot_date = (Raise e, tr)
  ↔ fetch_records E = Raise e ∧ tr = [].
Proof.
  destruct (fetch_records E) as [rows|e0] eqn:Hrows.
  - rewrite (analyze_all_run _ _ rows Hrows). split; [done|]. by intros [[=] _].
  - unfold analyze_all_patients_hematological_state. rewrite Hrows. simpl.
    split; [by intros [= -> <-]|by intros [[= ->] ->]].
Qed.

(** X14. Nothing is cached between subjects: the events of a scan are the
    events of the single analyses, one subject after the other in roster
    order, so the rule resource is loaded anew for every subject whose
    analysis needs it, and at most twice as many events occur as there are
    subjects. *)
Theorem analyze_all_trace (E : Engine) (snapshot_date : option snapshot)
    (rows : list patient_row) :
  fetch_records E = Ok rows →
  (analyze_all_patients_hematological_state E snapshot_date).2
  = concat ((λ row : patient_row,
               (analyze_patient_hematological_state E row.1.1.1 snapshot_date).2)
            <$> rows)
  ∧ (length (analyze_all_patients_hematological_state E snapshot_date).2
     ≤ 2 * length rows)%nat.
Proof.
  intros Hrows. rewrite (analyze_all_run _ _ rows Hrows). simpl. split; [done|].
  induction rows as [|row rows IH] in |- *; csimpl; [lia|].
  rewrite length_app.
  assert (length (analyze_patient_hematological_state E row.1.1.1 snapshot_date).2 ≤ 2)%nat.
  { destruct (analyze_trace_shape E row.1.1.1 snapshot_date) as [->|[->|[key ->]]];
      simpl; lia. }
  lia.
Qed.

Lemma analyze_all_entry (E : Engine) (snapshot_date : option snapshot)
    (rows : list patient_row) (results : list (gmap string field)) (tr : list event)
    (i : nat) (row : patient_row) (r : gmap string field) :
  fetch_records E = Ok rows →
  analyze_all_patients_hematological_state E snapshot_date = (Ok results, tr) →
  rows !! i = Some row → results !! i = Some r →
  r = roster_entry E snapshot_date row.
Proof.
  intros Hrows Hrun Hi Hr. rewrite (analyze_all_run _ _ rows Hrows) in Hrun.
  injection Hrun as <- _. rewrite list_lookup_fmap, Hi in Hr. by injection Hr.
Qed.

(** X15. What the keys of an entry of the scan tell: every entry has
    [first_name] and [last_name] from the roster row; it has an [error] key
    exactly when the analysis raised or the mediator had no data for the
    subject, and a [hematological_state] key exactly when the analysis
    returned; its [patient_id] is the roster's own value when the analysis
    raised, but the stripped string form of it when the analysis returned. *)
Theorem analyze_all_entry_keys (E : Engine) (snapshot_date : option snapshot)
    (rows : list patient_row) (results : list (gmap string field)) (tr : list event)
    (i : nat) (patient_id first_name last_name sex : pyval) (r : gmap string field) :
  fetch_records E = Ok rows →
  analyze_all_patients_hematological_state E snapshot_date = (Ok results, tr) →
  rows !! i = Some (patient_id, first_name, last_name, sex) →
  results !! i = Some r →
  let raised := ∃ e t,
    analyze_patient_hematological_state E patient_id snapshot_date = (Raise e, t) in
  let returned := ∃ a t,
    analyze_patient_hematological_state E patient_id snapshot_date = (Ok a, t) in
  r !! "first_name" = Some (FVal first_name)
  ∧ r !! "last_name" = Some (FVal last_name)
  ∧ (is_Some (r !! "error")
     ↔ raised ∨ mediator_run E (strip (py_str patient_id))
                  (snapshot_or_now E snapshot_date) = Ok [])
  ∧ (is_Some (r !! "hematological_state") ↔ returned)
  ∧ (raised → r !! "patient_id" = Some (FVal patient_id))
  ∧ (returned → r !! "patient_id" = Some (FVal (PyStr (strip (py_str patient_id))))).
Proof.
  intros Hrows Hrun Hi Hr raised returned. subst raised returned.
  rewrite (analyze_all_entry _ _ _ _ _ _ _ _ Hrows Hrun Hi Hr). clear Hrun Hr.
  unfold roster_entry.
  destruct (analyze_patient_hematological_state E patient_id snapshot_date)
    as [[a|e] t] eqn:Han.
  - apply analyze_ok_inv in Han as [[Hm ->]|(df & h & w & hs & Hm & Hdf & ->)].
    + split_and!; [done|done| | | |done].
      * split; intros _; [by right|by eexists].
      * split; intros _; [by do 2 eexists|by eexists].
      * by intros (? & ? & [=]).
    + split_and!; [done|done| | | |done].
      * split; [intros [x Hx]; discriminate Hx|].
        intros [(? & ? & [=])|Hnil]. rewrite Hm in Hnil. by injection Hnil.
      * split; intros _; [by do 2 eexists|by eexists].
      * by intros (? & ? & [=]).
  - split_and!; [done|done| | |done|].
    + split; intros _; [left; by do 2 eexists|by eexists].
    + split; [intros [x Hx]; discriminate Hx|by intros (? & ? & [=])].
    + by intros (? & ? & [=]).
Qed.

(** X16. A missing rule resource does not stop the scan: it returns one
    entry per roster row, and the entry of every subject with complete data
    (both concepts extracted to non-empty values) is the error record with
    the message of the [FileNotFoundError]. *)
Theorem analyze_all_missing_rule_file (E : Engine) (snapshot_date : option snapshot)
    (rows : list patient_row) :
  rule_files E !! HEMATOLOGICAL_RULES E = None →
  fetch_records E = Ok rows →
  ∃ results tr,
    analyze_all_patients_hematological_state E snapshot_date = (Ok results, tr)
    ∧ length results = length rows
    ∧ ∀ (i : nat) patient_id first_name last_name sex t df h w,
        rows !! i = Some (patient_id, first_name, last_name, sex) →
        snapshot_time_of E (snapshot_or_now E snapshot_date) = Ok t →
        mediator_run E (strip (py_str patient_id)) (snapshot_or_now E snapshot_date)
        = Ok df →
        get_latest_abstracted_value df "Hemoglobin_Level" t = (Ok (PyStr h), []) →
        get_latest_abstracted_value df "WBC_Level" t = (Ok (PyStr w), []) →
        h ≠ "" → w ≠ "" →
        ∃ r, results !! i = Some r
          ∧ r !! "patient_id" = Some (FVal patient_id)
          ∧ r !! "first_name" = Some (FVal first_name)
          ∧ r !! "last_name" = Some (FVal last_name)
          ∧ r !! "error"
            = Some (FVal (PyStr ("Rule file not found: " +:+ HEMATOLOGICAL_RULES E)))
          ∧ r !! "hematological_state" = None.
Proof.
  intros Hfs Hrows. rewrite (analyze_all_run _ _ rows Hrows).
  do 2 eexists. split_and!; [done|by rewrite length_fmap|].
  intros i pid fn ln sex t df h w Hi Ht Hm Hh Hw Hhne Hwne.
  rewrite list_lookup_fmap, Hi. simpl.
  assert (Hdf : df ≠ []).
  { intros ->. by rewrite get_latest_abstracted_value_spec in Hh. }
  rewrite get_latest_abstracted_value_spec in Hh, Hw.
  injection Hh as Hh. injection Hw as Hw.
  rewrite (analyze_nonempty _ _ _ t df Ht Hm Hdf), Hh, Hw.
  rewrite get_hematological_state_truthy;
    [|simpl; by rewrite bool_decide_eq_false_2..].
  rewrite apply_rule_missing by done. simpl. by eexists.
Qed.

(** ** Instances of the further properties *)

Lemma apply_rule_string_forms_only_demo :
  apply_rule demo_files demo_rule_path
    (<["wbc_level" := PyBool true]> (<["hemoglobin_state" := PyInt 7]> ∅))
  = apply_rule demo_files demo_rule_path
      (<["ward" := PyStr "B"]>
         (<["wbc_level" := PyStr "True"]> (<["hemoglobin_state" := PyStr "7"]> ∅))).
Proof.
  apply (apply_rule_string_forms_only demo_files demo_rule_path demo_rule).
  - reflexivity.
  - intros p Hp.
    repeat (apply elem_of_cons in Hp as [->|Hp]);
      [reflexivity|reflexivity|by apply elem_of_nil in Hp].
Defined.

Lemma apply_rule_ignores_undeclared_demo :
  apply_rule demo_files demo_rule_path
    (<["platelets" := PyStr "Low"]>
       (<["wbc_level" := PyStr "Low"]> (<["hemoglobin_state" := PyStr "Severe Anemia"]> ∅)))
  = apply_rule demo_files demo_rule_path
      (<["wbc_level" := PyStr "Low"]> (<["hemoglobin_state" := PyStr "Severe Anemia"]> ∅)).
Proof.
  apply (apply_rule_ignores_undeclared demo_files demo_rule_path demo_rule).
  - reflexivity.
  - intros Hp.
    repeat (apply elem_of_cons in Hp as [Hp|Hp]);
      [discriminate Hp|discriminate Hp|by apply elem_of_nil in Hp].
Defined.

Lemma load_rule_malformed_propagates_demo :
  apply_rule broken_files demo_rule_path ∅
  = (Raise (JSONDecodeError "Expecting value: line 1 column 1 (char 0)"),
     [EvLoadRule demo_rule_path]).
Proof.
  destruct (load_rule_malformed_propagates broken_files demo_rule_path
              "Expecting value: line 1 column 1 (char 0)") as (_ & Happly & _).
  - reflexivity.
  - exact (Happly ∅).
Defined.

Lemma apply_rule_same_key_same_fields_demo :
  py_str (dict_get (<["wbc_level" := PyStr "Low"]>
                      (<["hemoglobin_state" := PyStr "Severe Anemia"]> ∅))
            "wbc_level" (PyStr ""))
  = py_str (dict_get (<["ward" := PyStr "B"]>
                        (<["wbc_level" := PyStr "Low"]>
                           (<["hemoglobin_state" := PyStr "Severe Anemia"]> ∅)))
              "wbc_level" (PyStr "")).
Proof.
  apply (apply_rule_same_key_same_fields demo_files demo_rule_path demo_rule).
  - reflexivity.
  - intros p Hp.
    repeat (apply elem_of_cons in Hp as [->|Hp]);
      [reflexivity|reflexivity|by apply elem_of_nil in Hp].
  - reflexivity.
  - apply list_elem_of_In. right. left. reflexivity.
Defined.

Lemma apply_rule_key_arity_demo :
  (1 ≤ commas "Severe Anemia,Low")%nat.
Proof.
  apply (apply_rule_key_arity demo_files demo_rule_path demo_rule
           (<["wbc_level" := PyStr "Low"]>
              (<["hemoglobin_state" := PyStr "Severe Anemia"]> ∅))
           "Severe Anemia,Low").
  - reflexivity.
  - apply list_elem_of_In. right. left. reflexivity.
Defined.

Lemma get_latest_abstracted_value_ignores_others_demo :
  get_latest_abstracted_value demo_frame "Hemoglobin_Level" 5
  = get_latest_abstracted_value
      [ observation "Hemoglobin_Level" "Mild Anemia" 1 10;
        observation "Hemoglobin_Level" "Severe Anemia" 3 12;
        observation "Hemoglobin_Level" "Moderate Anemia" 3 12 ] "Hemoglobin_Level" 5.
Proof.
  apply (get_latest_abstracted_value_ignores_others
           [observation "Hemoglobin_Level" "Mild Anemia" 1 10]
           [observation "WBC_Level" "Low" 2 8]
           [observation "Hemoglobin_Level" "Severe Anemia" 3 12;
            observation "Hemoglobin_Level" "Moderate Anemia" 3 12]).
  intros r Hr.
  repeat (apply elem_of_cons in Hr as [->|Hr]);
    [left; discriminate|by apply elem_of_nil in Hr].
Defined.

Lemma get_latest_abstracted_value_permutation_demo :
  get_latest_abstracted_value
    [ observation "Hemoglobin_Level" "Mild Anemia" 1 10;
      observation "Hemoglobin_Level" "Severe Anemia" 3 12 ] "Hemoglobin_Level" 5
  = get_latest_abstracted_value
      [ observation "Hemoglobin_Level" "Severe Anemia" 3 12;
        observation "Hemoglobin_Level" "Mild Anemia" 1 10 ] "Hemoglobin_Level" 5.
Proof.
  apply get_latest_abstracted_value_permutation.
  - apply perm_swap.
  - intros r1 r2 H1 H2 _ _ _ _ _ _.
    repeat (apply elem_of_cons in H1 as [->|H1]);
      repeat (apply elem_of_cons in H2 as [->|H2]);
      try (by apply elem_of_nil in H1); try (by apply elem_of_nil in H2);
      simpl; first [reflexivity | discriminate].
Defined.

Lemma analyze_complete_data_demo :
  ∃ r, analyze_patient_hematological_state demo_engine (PyInt 1) None
       = (Ok r, [EvLoadRule demo_rule_path; EvLookup "Severe Anemia,Low"])
     ∧ r !! "hematological_state" = Some (FVal (PyStr "Critical Hematological State")).
Proof.
  destruct (analyze_complete_data demo_engine (PyInt 1) None 5 demo_frame
              "Severe Anemia" "Low" demo_rule)
    as (r & Hrun & Hhs & _); try reflexivity; try discriminate.
  exists r. split; [exact Hrun|exact Hhs].
Defined.

Lemma analyze_patient_id_padding_demo :
  analyze_patient_hematological_state demo_engine (PyStr "  1 ") None
  = analyze_patient_hematological_state demo_engine (PyInt 1) None.
Proof.
  apply (analyze_patient_id_padding demo_engine (PyInt 1) None "  " " "); reflexivity.
Defined.

Lemma analyze_all_trace_demo :
  (analyze_all_patients_hematological_state demo_engine None).2
  = [EvLoadRule demo_rule_path; EvLookup "Severe Anemia,Low"].
Proof.
  destruct (analyze_all_trace demo_engine None demo_roster eq_refl) as [Htr _].
  rewrite Htr. reflexivity.
Defined.

Lemma analyze_all_entry_keys_demo :
  error_record (PyInt 2) (PyStr "Omer") (PyStr "Katz")
    (OtherException "OperationalError" "database is locked") !! "patient_id"
  = Some (FVal (PyInt 2))
  ∧ (is_Some (error_record (PyInt 2) (PyStr "Omer") (PyStr "Katz")
                (OtherException "OperationalError" "database is locked")
              !! "hematological_state")
     ↔ ∃ a t, analyze_patient_hematological_state demo_engine (PyInt 2) None = (Ok a, t)).
Proof.
  pose proof (analyze_all_entry_keys demo_engine None demo_roster
                (match (analyze_all_patients_hematological_state demo_engine None).1 with
                 | Ok results => results
                 | Raise _ => []
                 end)
                (analyze_all_patients_hematological_state demo_engine None).2
                1%nat (PyInt 2) (PyStr "Omer") (PyStr "Katz") (PyStr "M")
                (error_record (PyInt 2) (PyStr "Omer") (PyStr "Katz")
                   (OtherException "OperationalError" "database is locked"))
                eq_refl eq_refl eq_refl eq_refl)
    as (_ & _ & _ & Hhs & Hraw & _).
  split; [|exact Hhs]. apply Hraw. by do 2 eexists.
Defined.

Lemma analyze_all_missing_rule_file_demo :
  ∃ results tr,
    analyze_all_patients_hematological_state demo_engine_without_rules None
    = (Ok results, tr)
    ∧ length results = 3%nat
    ∧ ∃ r, results !! 0%nat = Some r
        ∧ r !! "error"
          = Some (FVal (PyStr "Rule file not found: rules/hematological_rules.json")).
Proof.
  destruct (analyze_all_missing_rule_file demo_engine_without_rules None demo_roster)
    as (results & tr & Hrun & Hlen & Hrows); try reflexivity.
  exists results, tr. split_and!; [exact Hrun|exact Hlen|].
  destruct (Hrows 0%nat (PyInt 1) (PyStr "Dana") (PyStr "Levi") (PyStr "F")
              5 demo_frame "Severe Anemia" "Low")
    as (r & Hr & _ & _ & _ & Herr & _); try reflexivity; try discriminate.
  exists r. split; [exact Hr|exact Herr].
Defined.

(** * The extractor on the columns as stored *)

Lemma filter_fmap {A B : Type} (P : B → bool) (g : A → B) (l : list A) :
  List.filter P (g <$> l) = g <$> List.filter (λ a, P (g a)) l.
Proof.
  induction l as [|a l IH]; csimpl; [done|]. destruct (P (g a)); csimpl; by rewrite IH.
Qed.

Section stored_chronological.
Context {D : Type} (to_instant : D → Z) (cell_ltb : D → D → bool).
Hypothesis cell_ltb_chronological :
  ∀ x y, cell_ltb x y = Z.ltb (to_instant x) (to_instant y).

Let as_row : StoredRow D → Row := row_of_stored to_instant.

Lemma stored_with_labels_fmap (k : nat) (df : list (StoredRow D)) :
  with_labels k (as_row <$> df) = prod_map id as_row <$> stored_with_labels k df.
Proof. revert k. induction df as [|r df IH]; intros k; csimpl; [done|]. by rewrite IH. Qed.

Lemma stored_boolean_index_fmap (c : string) (t : Z) (df : list (StoredRow D)) :
  boolean_index (concept_mask c t) (as_row <$> df)
  = prod_map id as_row <$> stored_boolean_index (stored_mask to_instant c t) df.
Proof.
  unfold boolean_index, stored_boolean_index.
  by rewrite stored_with_labels_fmap, filter_fmap.
Qed.

Lemma stored_idxmax_from_chronological (best : nat * D) (col : list (nat * D)) :
  stored_idxmax_from cell_ltb best col
  = idxmax_from (best.1, to_instant best.2) (map (λ c, (c.1, to_instant c.2)) col).
Proof.
  revert best. induction col as [|c col IH]; intros best; simpl; [done|].
  rewrite IH, cell_ltb_chronological. by destruct (Z.ltb _ _).
Qed.

Lemma stored_loc_fmap (sel : list (nat * StoredRow D)) (label : nat) :
  loc (prod_map id as_row <$> sel) label
  = match stored_loc sel label with Ok r => Ok (as_row r) | Raise e => Raise e end.
Proof.
  induction sel as [|[i r] sel IH]; csimpl; [done|]. by case_bool_decide.
Qed.

Lemma stored_idxmax_chronological (sel : list (nat * StoredRow D)) :
  stored_idxmax cell_ltb (map (λ ir, (ir.1, stored_StartDateTime ir.2)) sel)
  = idxmax (map (λ ir : nat * Row, (ir.1, StartDateTime ir.2))
              (prod_map id as_row <$> sel)).
Proof.
  destruct sel as [|b sel]; [done|]. simpl. f_equal.
  rewrite stored_idxmax_from_chronological. simpl. f_equal.
  induction sel as [|c sel IH]; csimpl; [done|]. by rewrite IH.
Qed.

(** Where the stored order of the cells is the order of their instants, as
    it is for timestamps, the extractor on the stored columns is the
    extractor on the instants. *)
Lemma get_latest_abstracted_value_stored_chronological
    (df : list (StoredRow D)) (c : string) (t : Z) :
  get_latest_abstracted_value_stored to_instant cell_ltb df c t
  = get_latest_abstracted_value (as_row <$> df) c t.
Proof.
  unfold get_latest_abstracted_value_stored, get_latest_abstracted_value.
  destruct df as [|r0 df]; [done|].
  rewrite !bool_decide_eq_false_2 by done.
  rewrite stored_boolean_index_fmap.
  destruct (stored_boolean_index (stored_mask to_instant c t) (r0 :: df))
    as [|b sel] eqn:Hsel; [done|].
  rewrite !bool_decide_eq_false_2 by done.
  rewrite stored_idxmax_chronological.
  destruct (idxmax _) as [label|e]; [|done].
  rewrite !bind_lift_ok, stored_loc_fmap.
  by destruct (stored_loc (b :: sel) label).
Qed.
End stored_chronological.

(** On timestamp columns the stored model is the model of the rest of
    this development. *)
Lemma get_latest_abstracted_value_stored_timestamps
    (df : list (StoredRow Z)) (c : string) (t : Z) :
  get_latest_abstracted_value_stored id Z.ltb df c t
  = get_latest_abstracted_value (row_of_stored id <$> df) c t.
Proof. by apply get_latest_abstracted_value_stored_chronological. Qed.

(** C2, on date columns stored as text. Both rows of [text_frame] bear the
    concept and contain the snapshot instant (1 February 2024), and the second
    starts later (15 January 2024 against 31 December 2023). The mask compares
    the converted dates, but [idxmax] compares the stored texts and prefers
    ["12/31/2023"] to ["01/15/2024"]: the extractor returns the value of the
    row that started earlier, where the row of maximal [StartDateTime] is the
    other one, as the extractor run on the instants shows. *)
Theorem get_latest_abstracted_value_text_dates_earlier :
  Forall (λ r, stored_mask date_instant "Hemoglobin_Level" 20240201 r = true) text_frame
  ∧ get_latest_abstracted_value_stored date_instant text_ltb text_frame
      "Hemoglobin_Level" 20240201
    = (Ok (PyStr "Severe Anemia"), [])
  ∧ get_latest_abstracted_value (row_of_stored date_instant <$> text_frame)
      "Hemoglobin_Level" 20240201
    = (Ok (PyStr "Mild Anemia"), [])
  ∧ text_ltb {| date_text := "01/15/2024"; date_instant := 20240115 |}
             {| date_text := "12/31/2023"; date_instant := 20231231 |} = true.
Proof. split_and!; [by repeat constructor|reflexivity..]. Qed.


(** Against C10 as stated: the table of [collision_engine] has the key
    [",Mild,Low"], which reads as an empty hemoglobin field followed by
    ["Mild,Low"]; the analysis of a subject whose hemoglobin value is
    [",Mild"] and whose white-cell level is ["Low"] looks that key up and
    returns its entry. *)
Lemma analyze_matches_empty_hemoglobin_key :
  ∃ r, analyze_patient_hematological_state collision_engine (PyInt 1) None
       = (Ok r, [EvLoadRule demo_rule_path; EvLookup ",Mild,Low"])
     ∧ r !! "hematological_state" = Some (FVal (PyStr "Unclassified"))
     ∧ r !! "individual_states"
       = Some (FStates (<["wbc_level" := PyStr "Low"]>
                       (<["hemoglobin_state" := PyStr ",Mild"]> ∅)))
     ∧ ",Mild,Low" = String.concat "," [""; "Mild,Low"].
Proof. eexists. split_and!; reflexivity. Qed.


